(** * X.509 certificate generation: signature transcoding and input decoding

    A shallow embedding of three units of the library:

    - [AsnEcSignatureFormatter]: conversion of an ECDSA signature between
      the WebCrypto form (R||S, fixed width) and the ASN.1 form
      (ECDSASigValue);
    - [PemData]: decoding of an object given as bytes or as PEM / hex /
      base64 / base64url text;
    - [X509CertificateGenerator]: assembly, signing and serialisation of a
      certificate.

    JavaScript values are modelled as the code uses them: byte buffers as
    lists of bytes, numbers as integers ([Z]), plain objects as finite maps
    from property names to values, exceptions as the [Throw] case of a result
    type.  Collaborators that live outside these three files (the ASN.1
    codec, WebCrypto, the dependency-injection container, the text codecs)
    are parameters of the development. *)

From Stdlib Require Import ZArith Lia.
From Stdlib Require Import Init.Byte Strings.Ascii.
From stdpp Require Import base option list gmap strings.

Local Open Scope Z_scope.

(** ** JavaScript preliminaries *)

(** Byte buffers ([ArrayBuffer], [Uint8Array]): only their content matters. *)
Abbreviation bytes := (list byte).

Definition byte_is_zero (b : byte) : bool :=
  match b with x00 => true | _ => false end.

(** Exceptions, by constructor, with their message. *)
Inductive JsError : Type :=
| TypeError (msg : string)
| RangeError (msg : string)
| Error (msg : string).

(** The outcome of a call that may throw. *)
Inductive result (A : Type) : Type :=
| Ok (a : A)
| Throw (e : JsError).
Arguments Ok {A} a.
Arguments Throw {A} e.

Definition bind {A B : Type} (m : result A) (k : A -> result B) : result B :=
  match m with
  | Ok a => k a
  | Throw e => Throw e
  end.

Notation "x <- m ;; k" := (bind m (fun x => k))
  (at level 100, m at next level, right associativity).

(** [xs.map(f)] where [f] may throw: elements are visited in order and the
    first exception aborts the traversal. *)
Fixpoint mapResult {A B : Type} (f : A -> result B) (xs : list A)
    : result (list B) :=
  match xs with
  | [] => Ok []
  | x :: rest => y <- f x ;; ys <- mapResult f rest ;; Ok (y :: ys)
  end.

(** Property values that occur in algorithm descriptors: strings
    ([name], [namedCurve], [hash] given by name), numbers ([modulusLength],
    [saltLength]) and nested descriptors such as [hash: { name: "SHA-256" }]. *)
Inductive JsValue : Type :=
| JsString (s : string)
| JsNumber (n : Z)
| JsNamed (name : string).

(** WebCrypto [Algorithm] dictionaries are plain objects. *)
Abbreviation Algorithm := (gmap string JsValue).

(** [algorithm.name === "ECDSA"]: strict equality with a string literal. *)
Definition name_is (algorithm : Algorithm) (lit : string) : bool :=
  match algorithm !! "name"%string with
  | Some (JsString n) => String.eqb n lit
  | _ => false
  end.

(** [%TypedArray%.prototype.slice(start, end)]: a negative index counts from
    the end, every index is clamped to the length, and an empty range yields
    an empty array. *)
Definition relativeIndex (len i : Z) : Z :=
  if i <? 0 then Z.max (len + i) 0 else Z.min i len.

Definition slice (b : bytes) (start finish : Z) : bytes :=
  let len := Z.of_nat (length b) in
  let k := relativeIndex len start in
  let final := relativeIndex len finish in
  take (Z.to_nat (final - k)) (drop (Z.to_nat k) b).

(** [new Uint8Array(length)]: zero-filled; a negative length is a
    [RangeError].  (The engine's upper limit on the length is left out.) *)
Definition newUint8Array (len : Z) : result bytes :=
  if len <? 0 then Throw (RangeError "Invalid typed array length")
  else Ok (replicate (Z.to_nat len) x00).

(** [target.set(source, offset)]: a negative offset, or a source that does
    not fit behind the offset, is a [RangeError]. *)
Definition typedArraySet (target source : bytes) (offset : Z) : result bytes :=
  if offset <? 0 then Throw (RangeError "offset is out of bounds")
  else if Z.of_nat (length target) <? Z.of_nat (length source) + offset
  then Throw (RangeError "offset is out of bounds")
  else Ok (take (Z.to_nat offset) target ++ source
           ++ drop (Z.to_nat offset + length source)%nat target).

(** [combine(a, b)] of pvtsutils: the concatenation of the buffers. *)
Definition combine (a b : bytes) : bytes := a ++ b.

(** [x || d] on an optional number: [undefined] and [0] are falsy. *)
Definition js_or (x : option Z) (d : Z) : Z :=
  match x with
  | Some n => if n =? 0 then d else n
  | None => d
  end.

(** ** The signature formatter interface [IAsnSignatureFormatter]

    Both operations answer [null] ([None]) when the formatter does not handle
    the algorithm. *)
Record IAsnSignatureFormatter : Type := {
  toAsnSignature : Algorithm -> bytes -> result (option bytes);
  toWebSignature : Algorithm -> bytes -> result (option bytes);
}.

(** ** ECDSASigValue and its codec

    [ECDSASigValue ::= SEQUENCE { r INTEGER, s INTEGER }]; both fields hold
    the integer's content octets. *)
Module ECDSASigValue.
Record t : Type := mk { r : bytes; s : bytes }.
End ECDSASigValue.

(** [AsnConvert.serialize] and [AsnConvert.parse] at type [ECDSASigValue].
    Serialising an in-memory value always yields bytes; parsing throws on
    input that is not an encoding. *)
Class AsnConvert : Type := {
  serialize : ECDSASigValue.t -> bytes;
  parse : bytes -> result ECDSASigValue.t;
}.

(** ** AsnEcSignatureFormatter *)
Module AsnEcSignatureFormatter.

(** [public static defaultNamedCurveSize = 32] *)
Definition defaultNamedCurveSize : Z := 32.

(** [namedCurveSize.get(namedCurve)] on the [Map<string, number>]: a
    property that is missing or is not a string finds no entry. *)
Definition namedCurveSize_get (namedCurveSize : gmap string Z)
    (namedCurve : option JsValue) : option Z :=
  match namedCurve with
  | Some (JsString c) => namedCurveSize !! c
  | _ => None
  end.

(** [addPadding]: a zero-filled array of [pointSize] bytes with the data
    written at its end. *)
Definition addPadding (pointSize : Z) (data : bytes) : result bytes :=
  res <- newUint8Array pointSize ;;
  typedArraySet res data (pointSize - Z.of_nat (length data)).

(** [removePadding]: the loop skips zero bytes and returns the rest from
    the first non-zero byte on; an all-zero input gives the empty buffer. *)
Fixpoint removePadding (data : bytes) : bytes :=
  match data with
  | [] => []
  | b :: rest => if byte_is_zero b then removePadding rest else b :: rest
  end.

Section Formatter.
(** The static table [namedCurveSize] and the ASN.1 codec. *)
Context (namedCurveSize : gmap string Z) {codec : AsnConvert}.

(** The point size both operations compute:
    [namedCurveSize.get(namedCurve) || defaultNamedCurveSize]. *)
Definition pointSizeOf (algorithm : Algorithm) : Z :=
  js_or (namedCurveSize_get namedCurveSize (algorithm !! "namedCurve"%string))
        defaultNamedCurveSize.

Definition toAsnSignature (algorithm : Algorithm) (signature : bytes)
    : result (option bytes) :=
  if name_is algorithm "ECDSA" then
    let pointSize := pointSizeOf algorithm in
    let r := removePadding (slice signature 0 pointSize) in
    let s := removePadding (slice signature pointSize (pointSize + pointSize)) in
    Ok (Some (serialize (ECDSASigValue.mk r s)))
  else Ok None.

Definition toWebSignature (algorithm : Algorithm) (signature : bytes)
    : result (option bytes) :=
  if name_is algorithm "ECDSA" then
    ecSigValue <- parse signature ;;
    let pointSize := pointSizeOf algorithm in
    r <- addPadding pointSize (removePadding (ECDSASigValue.r ecSigValue)) ;;
    s <- addPadding pointSize (removePadding (ECDSASigValue.s ecSigValue)) ;;
    Ok (Some (combine r s))
  else Ok None.

(** The formatter as an implementation of the interface. *)
Definition formatter : IAsnSignatureFormatter :=
  Build_IAsnSignatureFormatter toAsnSignature toWebSignature.

End Formatter.
End AsnEcSignatureFormatter.

(** ** PemData *)

(** [AsnEncodedType = BufferSource | string] *)
Inductive AsnEncodedType : Type :=
| BufferSource (raw : bytes)
| Text (raw : string).

(** The text codecs the decoder consults: [PemConverter] and [Convert]
    (pvtsutils).  [PemConverter.decode] yields one buffer per
    PEM object found in the text. *)
Class TextCodecs : Type := {
  PemConverter_isPem : string -> bool;
  PemConverter_decode : string -> result (list bytes);
  Convert_isHex : string -> bool;
  Convert_FromHex : string -> result bytes;
  Convert_isBase64 : string -> bool;
  Convert_FromBase64 : string -> result bytes;
  Convert_isBase64Url : string -> bool;
  Convert_FromBase64Url : string -> result bytes;
}.

(** The encoders of the same two libraries.  [PemConverter.encode] takes
    the bytes and the tag. *)
Class TextEncoders : Type := {
  PemConverter_encode : bytes -> string -> string;
  Convert_ToHex : bytes -> string;
  Convert_ToBase64 : bytes -> string;
  Convert_ToBase64Url : bytes -> string;
}.

Module PemData.
Section Decoder.
Context {codecs : TextCodecs}.

Definition unsupported_format : JsError :=
  TypeError "Unsupported format of 'raw' argument. Must be one of DER, PEM, HEX, Base64, or Base4Url".

(** [toArrayBuffer].  The PEM branch returns element [0] of the decoded
    list, which is [undefined] ([None]) for an empty list. *)
Definition toArrayBuffer (raw : AsnEncodedType) : result (option bytes) :=
  match raw with
  | Text raw =>
      if PemConverter_isPem raw then
        decoded <- PemConverter_decode raw ;; Ok (decoded !! 0%nat)
      else if Convert_isHex raw then
        b <- Convert_FromHex raw ;; Ok (Some b)
      else if Convert_isBase64 raw then
        b <- Convert_FromBase64 raw ;; Ok (Some b)
      else if Convert_isBase64Url raw then
        b <- Convert_FromBase64Url raw ;; Ok (Some b)
      else Throw unsupported_format
  | BufferSource raw => Ok (Some raw)
  end.

(** The constructor: an encoded argument is decoded and handed to the
    [AsnData] constructor ([super(raw, type)]), a structured one is handed
    over as it is ([super(asn)]). *)
Definition new {T D : Type} (AsnData_ofRaw : option bytes -> result D)
    (AsnData_ofAsn : T -> result D) (arg : AsnEncodedType + T) : result D :=
  match arg with
  | inl encoded => raw <- toArrayBuffer encoded ;; AsnData_ofRaw raw
  | inr asn => AsnData_ofAsn asn
  end.

End Decoder.

(** [isAsnEncoded]: a buffer or a string, as opposed to a structure. *)
Definition isAsnEncoded {T : Type} (data : AsnEncodedType + T) : bool :=
  match data with
  | inl (BufferSource _) => true
  | inl (Text _) => true
  | inr _ => false
  end.

Section Encoder.
Context {encoders : TextEncoders}.

Definition unsupported_value : JsError :=
  TypeError "Argument 'format' is unsupported value".

(** [toString] of an object with the given [rawData] and [tag]; the format
    is [None] when the argument is left out, which stands for ["pem"]. *)
Definition toString (rawData : bytes) (tag : string) (format : option string)
    : result string :=
  let format := default "pem"%string format in
  if String.eqb format "pem" then Ok (PemConverter_encode rawData tag)
  else if String.eqb format "hex" then Ok (Convert_ToHex rawData)
  else if String.eqb format "base64" then Ok (Convert_ToBase64 rawData)
  else if String.eqb format "base64url" then Ok (Convert_ToBase64Url rawData)
  else Throw unsupported_value.

End Encoder.
End PemData.

(** ** ASN.1 structures of a certificate (asn1-x509) *)

(** The structures whose content the generator never inspects. *)
Class Asn1X509Types : Type := {
  AlgorithmIdentifier : Type;
  Name : Type;
  SubjectPublicKeyInfo : Type;
  AsnExtension : Type;
  X509Certificate : Type;
}.

Module asn1X509.
Section Structures.
Context {types : Asn1X509Types}.

(** [Version.v3] *)
Definition v3 : Z := 2.

Record Validity : Type := { notBefore : Z; notAfter : Z }.

(** Fields a constructor leaves at their default are [None]. *)
Record TBSCertificate : Type := {
  version : Z;
  serialNumber : bytes;
  signature : option AlgorithmIdentifier;
  issuer : option Name;
  validity : Validity;
  subject : option Name;
  subjectPublicKeyInfo : SubjectPublicKeyInfo;
  extensions : list AsnExtension;
}.

Record Certificate : Type := {
  tbsCertificate : TBSCertificate;
  signatureAlgorithm : option AlgorithmIdentifier;
  signatureValue : bytes;
}.

(** Assignments to single fields. *)
Definition set_subject (n : Name) (c : Certificate) : Certificate :=
  let t := tbsCertificate c in
  {| tbsCertificate :=
       {| version := version t; serialNumber := serialNumber t;
          signature := signature t; issuer := issuer t; validity := validity t;
          subject := Some n; subjectPublicKeyInfo := subjectPublicKeyInfo t;
          extensions := extensions t |};
     signatureAlgorithm := signatureAlgorithm c;
     signatureValue := signatureValue c |}.

Definition set_issuer (n : Name) (c : Certificate) : Certificate :=
  let t := tbsCertificate c in
  {| tbsCertificate :=
       {| version := version t; serialNumber := serialNumber t;
          signature := signature t; issuer := Some n; validity := validity t;
          subject := subject t; subjectPublicKeyInfo := subjectPublicKeyInfo t;
          extensions := extensions t |};
     signatureAlgorithm := signatureAlgorithm c;
     signatureValue := signatureValue c |}.

(** [c.tbsCertificate.signature = c.signatureAlgorithm = a] *)
Definition set_signatureAlgorithms (a : AlgorithmIdentifier) (c : Certificate)
    : Certificate :=
  let t := tbsCertificate c in
  {| tbsCertificate :=
       {| version := version t; serialNumber := serialNumber t;
          signature := Some a; issuer := issuer t; validity := validity t;
          subject := subject t; subjectPublicKeyInfo := subjectPublicKeyInfo t;
          extensions := extensions t |};
     signatureAlgorithm := Some a;
     signatureValue := signatureValue c |}.

Definition set_signatureValue (v : bytes) (c : Certificate) : Certificate :=
  {| tbsCertificate := tbsCertificate c;
     signatureAlgorithm := signatureAlgorithm c;
     signatureValue := v |}.

End Structures.
End asn1X509.

(** ** X509CertificateGenerator *)

(** [JsonName]: an array of attribute tables. *)
Abbreviation JsonName := (list (gmap string (list string))).

(** [X509CertificateCreateParamsName = string | JsonName] *)
Inductive X509CertificateCreateParamsName : Type :=
| NameString (s : string)
| NameJson (j : JsonName).

(** A [CryptoKey]: its [algorithm] dictionary and the key it stands for. *)
Record CryptoKey : Type := { algorithm : Algorithm; keyId : N }.

Module CryptoKeyPair.
Record t : Type := mk { publicKey : CryptoKey; privateKey : CryptoKey }.
End CryptoKeyPair.

(** The [Extension] wrapper: only its encoding is read. *)
Record Extension : Type := { rawData : bytes }.

Record X509CertificateCreateParamsBase : Type := {
  serialNumber : string;
  notBefore : Z;
  notAfter : Z;
  extensions : option (list Extension);
  signingAlgorithm : Algorithm;
}.

Record X509CertificateCreateParams : Type := {
  create_base :> X509CertificateCreateParamsBase;
  subject : option X509CertificateCreateParamsName;
  issuer : option X509CertificateCreateParamsName;
  publicKey : CryptoKey;
  signingKey : CryptoKey;
}.

Record X509CertificateCreateSelfSignedParams : Type := {
  selfSigned_base :> X509CertificateCreateParamsBase;
  name : option X509CertificateCreateParamsName;
  keys : CryptoKeyPair.t;
}.

(** What the generator calls outside its own file: WebCrypto, the ASN.1
    codec, the name encoder, the dependency-injection container (algorithm
    provider and registered signature formatters, the latter in
    registration order) and the constructor of the result. *)
Class Collaborators {types : Asn1X509Types} : Type := {
  subtle_exportKey : string -> CryptoKey -> result bytes;
  subtle_sign : Algorithm -> CryptoKey -> bytes -> result bytes;
  AsnConvert_parse_Extension : bytes -> result AsnExtension;
  AsnConvert_parse_SubjectPublicKeyInfo : bytes -> result SubjectPublicKeyInfo;
  AsnConvert_parse_Name : bytes -> result Name;
  Name_toArrayBuffer : X509CertificateCreateParamsName -> result bytes;
  AsnConvert_serialize_TBSCertificate : asn1X509.TBSCertificate -> bytes;
  AsnConvert_serialize_Certificate : asn1X509.Certificate -> bytes;
  AlgorithmProvider_toAsnAlgorithm : Algorithm -> result AlgorithmIdentifier;
  container_resolveAll_signatureFormatters : result (list IAsnSignatureFormatter);
  X509Certificate_new : bytes -> result X509Certificate;
}.

Module X509CertificateGenerator.
Section Generator.
Context {types : Asn1X509Types} {codecs : TextCodecs} {env : Collaborators}.

(** [if (x)] on an optional name: [undefined] and the empty string are
    falsy, an array is truthy. *)
Definition given (x : option X509CertificateCreateParamsName)
    : option X509CertificateCreateParamsName :=
  match x with
  | Some (NameString "") => None
  | other => other
  end.

(** [AsnConvert.parse(new Name(x).toArrayBuffer(), asn1X509.Name)] *)
Definition parseName (x : X509CertificateCreateParamsName) : result Name :=
  raw <- Name_toArrayBuffer x ;; AsnConvert_parse_Name raw.

(** The unsigned structure: the constructor call and the two conditional
    assignments of [subject] and [issuer]. *)
Definition assemble (params : X509CertificateCreateParams)
    : result asn1X509.Certificate :=
  spki <- subtle_exportKey "spki" (publicKey params) ;;
  serial <- Convert_FromHex (serialNumber params) ;;
  exts <- match extensions params with
          | Some es => mapResult (fun o => AsnConvert_parse_Extension (rawData o)) es
          | None => Ok []
          end ;;
  spkiAsn <- AsnConvert_parse_SubjectPublicKeyInfo spki ;;
  let asnX509 :=
    {| asn1X509.tbsCertificate :=
         {| asn1X509.version := asn1X509.v3;
            asn1X509.serialNumber := serial;
            asn1X509.signature := None;
            asn1X509.issuer := None;
            asn1X509.validity :=
              {| asn1X509.notBefore := notBefore params;
                 asn1X509.notAfter := notAfter params |};
            asn1X509.subject := None;
            asn1X509.subjectPublicKeyInfo := spkiAsn;
            asn1X509.extensions := exts |};
       asn1X509.signatureAlgorithm := None;
       asn1X509.signatureValue := [] |} in
  asnX509 <- match given (subject params) with
             | Some x => n <- parseName x ;; Ok (asn1X509.set_subject n asnX509)
             | None => Ok asnX509
             end ;;
  match given (issuer params) with
  | Some x => n <- parseName x ;; Ok (asn1X509.set_issuer n asnX509)
  | None => Ok asnX509
  end.

(** [{ ...params.signingAlgorithm, ...params.signingKey.algorithm }]: the
    properties of the first object, then those of the second, a later
    property replacing an earlier one of the same name.  The union of maps
    keeps the left operand's value on a common key. *)
Definition effectiveAlgorithm (params : X509CertificateCreateParams) : Algorithm :=
  algorithm (signingKey params) ∪ signingAlgorithm params.

(** The loop over the formatters: the variable [asnSignature] after it. *)
Fixpoint firstAsnSignature (signatureFormatters : list IAsnSignatureFormatter)
    (signingAlgorithm : Algorithm) (signature : bytes) : result (option bytes) :=
  match signatureFormatters with
  | [] => Ok None
  | signatureFormatter :: rest =>
      asnSignature <- toAsnSignature signatureFormatter signingAlgorithm signature ;;
      match asnSignature with
      | Some a => Ok (Some a)
      | None => firstAsnSignature rest signingAlgorithm signature
      end
  end.

Definition conversion_unsupported : JsError :=
  Error "Cannot convert ASN.1 signature value to WebCrypto format".

(** The structure [create] serialises in its last statement. *)
Definition signedStructure (params : X509CertificateCreateParams)
    : result asn1X509.Certificate :=
  asnX509 <- assemble params ;;
  let signingAlgorithm := effectiveAlgorithm params in
  algId <- AlgorithmProvider_toAsnAlgorithm signingAlgorithm ;;
  let asnX509 := asn1X509.set_signatureAlgorithms algId asnX509 in
  let tbs := AsnConvert_serialize_TBSCertificate (asn1X509.tbsCertificate asnX509) in
  signature <- subtle_sign signingAlgorithm (signingKey params) tbs ;;
  registered <- container_resolveAll_signatureFormatters ;;
  let signatureFormatters := rev registered in
  asnSignature <- firstAsnSignature signatureFormatters signingAlgorithm signature ;;
  match asnSignature with
  | None => Throw conversion_unsupported
  | Some a => Ok (asn1X509.set_signatureValue a asnX509)
  end.

Definition create (params : X509CertificateCreateParams) : result X509Certificate :=
  asnX509 <- signedStructure params ;;
  X509Certificate_new (AsnConvert_serialize_Certificate asnX509).

Definition createSelfSigned (params : X509CertificateCreateSelfSignedParams)
    : result X509Certificate :=
  create
    {| create_base :=
         {| serialNumber := serialNumber params;
            notBefore := notBefore params;
            notAfter := notAfter params;
            extensions := extensions params;
            signingAlgorithm := signingAlgorithm params |};
       subject := name params;
       issuer := name params;
       publicKey := CryptoKeyPair.publicKey (keys params);
       signingKey := CryptoKeyPair.privateKey (keys params) |}.

End Generator.
End X509CertificateGenerator.

(** * Specification-side definitions *)

(** ** Raw signatures

    A coordinate is written big-endian on a fixed number of bytes; a raw
    signature is the coordinate R followed by the coordinate S. *)
Definition byte_of_Z (z : Z) : byte :=
  default x00 (Byte.of_N (Z.to_N (z mod 256))).

Definition Z_of_byte (b : byte) : Z := Z.of_N (Byte.to_N b).

Fixpoint be_bytes (width : nat) (v : Z) : bytes :=
  match width with
  | O => []
  | S w => be_bytes w (v / 256) ++ [byte_of_Z v]
  end.

Definition be_value (b : bytes) : Z :=
  fold_left (fun acc x => 256 * acc + Z_of_byte x) b 0.

Definition rawSignature (R S P : Z) : bytes :=
  be_bytes (Z.to_nat P) R ++ be_bytes (Z.to_nat P) S.

(** ** The contract of the ASN.1 codec

    Parsing the serialisation of a pair of integers of at most [P] content
    bytes each gives back the same two magnitudes, up to leading zero bytes
    (an encoder may put a zero byte in front of a magnitude whose first bit
    is set, or write the integer zero as one zero byte). *)
Definition preserves_magnitudes (codec : AsnConvert) (P : Z) : Prop :=
  forall v : ECDSASigValue.t,
    Z.of_nat (length (ECDSASigValue.r v)) <= P ->
    Z.of_nat (length (ECDSASigValue.s v)) <= P ->
    exists v',
      parse (serialize v) = Ok v' /\
      AsnEcSignatureFormatter.removePadding (ECDSASigValue.r v') =
        AsnEcSignatureFormatter.removePadding (ECDSASigValue.r v) /\
      AsnEcSignatureFormatter.removePadding (ECDSASigValue.s v') =
        AsnEcSignatureFormatter.removePadding (ECDSASigValue.s v).

(** ** Decoding by priority

    The decoder as the specification words it: the text formats in their
    order of priority, each with its classifier and its decoder; the first
    format whose classifier accepts the text decodes it. *)
Inductive TextFormat : Type := Pem | Hex | Base64 | Base64Url.

Definition priority : list TextFormat := [Pem; Hex; Base64; Base64Url].

Section Priority.
Context {codecs : TextCodecs}.

Definition classifier (f : TextFormat) : string -> bool :=
  match f with
  | Pem => PemConverter_isPem
  | Hex => Convert_isHex
  | Base64 => Convert_isBase64
  | Base64Url => Convert_isBase64Url
  end.

Definition decoder (f : TextFormat) (text : string) : result (option bytes) :=
  match f with
  | Pem => objects <- PemConverter_decode text ;; Ok (head objects)
  | Hex => b <- Convert_FromHex text ;; Ok (Some b)
  | Base64 => b <- Convert_FromBase64 text ;; Ok (Some b)
  | Base64Url => b <- Convert_FromBase64Url text ;; Ok (Some b)
  end.

Definition decodeByPriority (text : string) : result (option bytes) :=
  match find (fun f => classifier f text) priority with
  | Some f => decoder f text
  | None => Throw PemData.unsupported_format
  end.

End Priority.

(** ** Collaborators that differ in signing and in the algorithm table *)
Definition withAlgorithmServices {types : Asn1X509Types} (env : Collaborators)
    (sign : Algorithm -> CryptoKey -> bytes -> result bytes)
    (toAsnAlgorithm : Algorithm -> result AlgorithmIdentifier) : Collaborators :=
  {| subtle_exportKey := subtle_exportKey;
     subtle_sign := sign;
     AsnConvert_parse_Extension := AsnConvert_parse_Extension;
     AsnConvert_parse_SubjectPublicKeyInfo := AsnConvert_parse_SubjectPublicKeyInfo;
     AsnConvert_parse_Name := AsnConvert_parse_Name;
     Name_toArrayBuffer := Name_toArrayBuffer;
     AsnConvert_serialize_TBSCertificate := AsnConvert_serialize_TBSCertificate;
     AsnConvert_serialize_Certificate := AsnConvert_serialize_Certificate;
     AlgorithmProvider_toAsnAlgorithm := toAsnAlgorithm;
     container_resolveAll_signatureFormatters := container_resolveAll_signatureFormatters;
     X509Certificate_new := X509Certificate_new |}.

(** ** What a successful [create] has produced

    The certificate was made from the serialisation of a structure whose two
    signature-algorithm fields both hold the identifier the algorithm
    provider returned for the effective signing algorithm. *)
Definition built_with_one_identifier {types : Asn1X509Types} {codecs : TextCodecs}
    {env : Collaborators} (params : X509CertificateCreateParams)
    (cert : X509Certificate) : Prop :=
  exists (asnX509 : asn1X509.Certificate) (algId : AlgorithmIdentifier),
    AlgorithmProvider_toAsnAlgorithm (X509CertificateGenerator.effectiveAlgorithm params)
      = Ok algId /\
    X509CertificateGenerator.signedStructure params = Ok asnX509 /\
    X509Certificate_new (AsnConvert_serialize_Certificate asnX509) = Ok cert /\
    asn1X509.signature (asn1X509.tbsCertificate asnX509) = Some algId /\
    asn1X509.signatureAlgorithm asnX509 = Some algId /\
    forall (encode : AlgorithmIdentifier -> bytes),
      encode <$> asn1X509.signature (asn1X509.tbsCertificate asnX509)
      = encode <$> asn1X509.signatureAlgorithm asnX509.

(** The parameters [createSelfSigned] passes to [create]. *)
Definition selfSignedRequest (params : X509CertificateCreateSelfSignedParams)
    : X509CertificateCreateParams :=
  {| create_base := selfSigned_base params;
     subject := name params;
     issuer := name params;
     publicKey := CryptoKeyPair.publicKey (keys params);
     signingKey := CryptoKeyPair.privateKey (keys params) |}.

(** A formatter answers not-applicable. *)
Definition declines (algorithm : Algorithm) (signature : bytes)
    (f : IAsnSignatureFormatter) : Prop :=
  toAsnSignature f algorithm signature = Ok None.

(** ** Where an error of [create] can come from

    The error is the answer of one of the calls [create] makes: the key
    export, the serial number decoder, the parser on an extension or on the
    exported key, the name encoder and parser on the subject or the issuer,
    the algorithm provider, the signer, the container, a registered
    formatter, or the constructor of the result. *)
Definition thrown_by_collaborator {types : Asn1X509Types} {codecs : TextCodecs}
    {env : Collaborators} (params : X509CertificateCreateParams) (e : JsError)
    : Prop :=
  subtle_exportKey "spki" (publicKey params) = Throw e \/
  Convert_FromHex (serialNumber params) = Throw e \/
  (exists (es : list Extension) (ext : Extension),
     extensions params = Some es /\ ext ∈ es /\
     AsnConvert_parse_Extension (rawData ext) = Throw e) \/
  (exists spki : bytes,
     subtle_exportKey "spki" (publicKey params) = Ok spki /\
     AsnConvert_parse_SubjectPublicKeyInfo spki = Throw e) \/
  (exists x : X509CertificateCreateParamsName,
     (X509CertificateGenerator.given (subject params) = Some x \/
      X509CertificateGenerator.given (issuer params) = Some x) /\
     X509CertificateGenerator.parseName x = Throw e) \/
  AlgorithmProvider_toAsnAlgorithm (X509CertificateGenerator.effectiveAlgorithm params)
    = Throw e \/
  (exists data : bytes,
     subtle_sign (X509CertificateGenerator.effectiveAlgorithm params)
       (signingKey params) data = Throw e) \/
  container_resolveAll_signatureFormatters = Throw e \/
  (exists (registered : list IAsnSignatureFormatter) (f : IAsnSignatureFormatter)
          (signature : bytes),
     container_resolveAll_signatureFormatters = Ok registered /\ f ∈ registered /\
     toAsnSignature f (X509CertificateGenerator.effectiveAlgorithm params) signature
       = Throw e) \/
  (exists raw : bytes, X509Certificate_new raw = Throw e).

(** The request with another subject and issuer. *)
Definition withNames (params : X509CertificateCreateParams)
    (subject issuer : option X509CertificateCreateParamsName)
    : X509CertificateCreateParams :=
  {| create_base := create_base params;
     subject := subject;
     issuer := issuer;
     publicKey := publicKey params;
     signingKey := signingKey params |}.

(** * Reference collaborators

    Executable instances of the collaborators, on which the properties below
    are exercised with concrete inputs. *)

(** ** DER encoding of ECDSASigValue

    A SEQUENCE (tag 30) of two INTEGERs (tag 02) whose content octets are the
    stored magnitudes, with definite lengths in short or long form. *)
Module Der.

Definition byte_of_nat (n : nat) : byte := byte_of_Z (Z.of_nat n).

Definition nat_of_byte (b : byte) : nat := N.to_nat (Byte.to_N b).

(** The base-256 digits of a number, most significant first, none for 0. *)
Fixpoint digits (fuel n : nat) : bytes :=
  match fuel with
  | O => []
  | S f => if (n =? 0)%nat then []
           else digits f (n / 256)%nat ++ [byte_of_nat (n mod 256)%nat]
  end.

Definition number (b : bytes) : nat :=
  fold_left (fun acc x => (256 * acc + nat_of_byte x)%nat) b O.

Definition encodeLength (n : nat) : bytes :=
  if (n <? 128)%nat then [byte_of_nat n]
  else let ds := digits n n in byte_of_nat (128 + length ds) :: ds.

Definition decodeLength (b : bytes) : option (nat * bytes) :=
  match b with
  | [] => None
  | l :: rest =>
      let l := nat_of_byte l in
      if (l <? 128)%nat then Some (l, rest)
      else let k := (l - 128)%nat in
           if (length rest <? k)%nat then None
           else Some (number (take k rest), drop k rest)
  end.

(** Tag, length, value. *)
Definition tlv (tag : byte) (content : bytes) : bytes :=
  tag :: encodeLength (length content) ++ content.

(** Reads one element with the given tag: its content and what follows. *)
Definition untlv (tag : byte) (b : bytes) : option (bytes * bytes) :=
  match b with
  | [] => None
  | t :: rest =>
      if Byte.eqb t tag then
        match decodeLength rest with
        | Some (n, rest') =>
            if (length rest' <? n)%nat then None
            else Some (take n rest', drop n rest')
        | None => None
        end
      else None
  end.

Definition malformed : JsError := Error "ASN.1 parsing failed".

Definition serialize (v : ECDSASigValue.t) : bytes :=
  tlv x30 (tlv x02 (ECDSASigValue.r v) ++ tlv x02 (ECDSASigValue.s v)).

Definition parse (b : bytes) : result ECDSASigValue.t :=
  match untlv x30 b with
  | Some (content, []) =>
      match untlv x02 content with
      | Some (r, rest) =>
          match untlv x02 rest with
          | Some (s, []) => Ok (ECDSASigValue.mk r s)
          | _ => Throw malformed
          end
      | None => Throw malformed
      end
  | _ => Throw malformed
  end.

(** The codec that writes the stored octets as they are. *)
Definition codec : AsnConvert := Build_AsnConvert serialize parse.

(** The content octets of a non-negative INTEGER in canonical form: the
    magnitude, with a zero byte in front when its first bit is set, and one
    zero byte for an empty magnitude. *)
Definition signedContent (magnitude : bytes) : bytes :=
  match magnitude with
  | [] => [x00]
  | b :: _ => if (128 <=? nat_of_byte b)%nat then x00 :: magnitude else magnitude
  end.

Definition serializeCanonical (v : ECDSASigValue.t) : bytes :=
  tlv x30 (tlv x02 (signedContent (ECDSASigValue.r v))
           ++ tlv x02 (signedContent (ECDSASigValue.s v))).

(** The codec that writes canonical INTEGERs. *)
Definition canonical : AsnConvert := Build_AsnConvert serializeCanonical parse.

End Der.

(** ** Text codecs

    Hexadecimal, base64 (standard and URL-safe alphabet) and PEM, written
    over the characters of the text. *)
Module TextSample.

Definition code (c : ascii) : nat := nat_of_ascii c.

Definition between (lo hi n : nat) : bool := ((lo <=? n) && (n <=? hi))%nat.

Definition hexValue (c : ascii) : option nat :=
  let n := code c in
  if between 48 57 n then Some (n - 48)%nat
  else if between 97 102 n then Some (n - 87)%nat
  else if between 65 70 n then Some (n - 55)%nat
  else None.

(** Letters first, then digits, then the two characters that differ between
    the alphabets. *)
Definition base64ValueWith (c62 c63 : nat) (c : ascii) : option nat :=
  let n := code c in
  if between 65 90 n then Some (n - 65)%nat
  else if between 97 122 n then Some (n - 71)%nat
  else if between 48 57 n then Some (n + 4)%nat
  else if (n =? c62)%nat then Some 62%nat
  else if (n =? c63)%nat then Some 63%nat
  else None.

(** ['+'] and ['/'] *)
Definition base64Value : ascii -> option nat := base64ValueWith 43 47.

(** ['-'] and ['_'] *)
Definition base64UrlValue : ascii -> option nat := base64ValueWith 45 95.

(** The values of all characters, if each has one. *)
Fixpoint values (value : ascii -> option nat) (cs : list ascii) : option (list nat) :=
  match cs with
  | [] => Some []
  | c :: rest =>
      match value c, values value rest with
      | Some v, Some vs => Some (v :: vs)
      | _, _ => None
      end
  end.

Fixpoint bytesOfNibbles (ds : list nat) : bytes :=
  match ds with
  | hi :: lo :: rest => Der.byte_of_nat (16 * hi + lo) :: bytesOfNibbles rest
  | _ => []
  end.

Fixpoint bytesOfSextets (vs : list nat) : bytes :=
  match vs with
  | a :: b :: c :: d :: rest =>
      Der.byte_of_nat (4 * a + b / 16)
      :: Der.byte_of_nat (16 * (b mod 16) + c / 4)
      :: Der.byte_of_nat (64 * (c mod 4) + d)
      :: bytesOfSextets rest
  | [a; b; c] =>
      [Der.byte_of_nat (4 * a + b / 16); Der.byte_of_nat (16 * (b mod 16) + c / 4)]
  | [a; b] => [Der.byte_of_nat (4 * a + b / 16)]
  | _ => []
  end.

(** The text without its trailing ['='] characters. *)
Fixpoint unpadded (cs : list ascii) : list ascii :=
  match cs with
  | [] => []
  | c :: rest =>
      match unpadded rest with
      | [] => if (code c =? 61)%nat then [] else [c]
      | kept => c :: kept
      end
  end.

Definition isHex (s : string) : bool :=
  match String.list_ascii_of_string s with
  | [] => false
  | cs => bool_decide (is_Some (values hexValue cs))
  end.

Definition FromHex (s : string) : result bytes :=
  match values hexValue (String.list_ascii_of_string s) with
  | Some ds => Ok (bytesOfNibbles (if Nat.odd (length ds) then O :: ds else ds))
  | None => Throw (TypeError "Argument 'hexString' is not HEX encoded")
  end.

(** Groups of four characters, the last one completed with ['=']. *)
Definition isBase64 (s : string) : bool :=
  let cs := String.list_ascii_of_string s in
  let body := unpadded cs in
  bool_decide (is_Some (values base64Value body))
  && (length cs mod 4 =? 0)%nat
  && (length cs - length body <=? 2)%nat
  && negb (length body mod 4 =? 1)%nat.

Definition FromBase64 (s : string) : result bytes :=
  match values base64Value (unpadded (String.list_ascii_of_string s)) with
  | Some vs => Ok (bytesOfSextets vs)
  | None => Throw (TypeError "Argument 'base64Text' is not Base64 encoded")
  end.

Definition isBase64Url (s : string) : bool :=
  match String.list_ascii_of_string s with
  | [] => false
  | cs => bool_decide (is_Some (values base64UrlValue cs))
  end.

Definition FromBase64Url (s : string) : result bytes :=
  match values base64UrlValue (String.list_ascii_of_string s) with
  | Some vs => Ok (bytesOfSextets vs)
  | None => Throw (TypeError "Argument 'base64url' is not Base64Url encoded")
  end.

(** Lines of a text: separated by LF, with CR dropped. *)
Fixpoint lines (cs current : list ascii) : list (list ascii) :=
  match cs with
  | [] => [reverse current]
  | c :: rest =>
      if (code c =? 10)%nat then reverse current :: lines rest []
      else if (code c =? 13)%nat then lines rest current
      else lines rest (c :: current)
  end.

Definition startsWith (p : string) (l : list ascii) : bool :=
  String.prefix p (String.string_of_list_ascii l).

(** The base64 bodies between a BEGIN line and the next END line; [body] is
    [None] outside an object. *)
Fixpoint pemBodies (ls : list (list ascii)) (body : option (list ascii))
    : list (list ascii) :=
  match ls with
  | [] => []
  | l :: rest =>
      match body with
      | None =>
          if startsWith "-----BEGIN " l then pemBodies rest (Some [])
          else pemBodies rest None
      | Some b =>
          if startsWith "-----END " l then b :: pemBodies rest None
          else pemBodies rest (Some (b ++ l))
      end
  end.

Definition pemObjects (s : string) : list string :=
  String.string_of_list_ascii <$> pemBodies (lines (String.list_ascii_of_string s) []) None.

Definition isPem (s : string) : bool :=
  match pemObjects s with [] => false | _ => true end.

Definition decode (s : string) : result (list bytes) :=
  mapResult FromBase64 (pemObjects s).

Definition codecs : TextCodecs :=
  {| PemConverter_isPem := isPem;
     PemConverter_decode := decode;
     Convert_isHex := isHex;
     Convert_FromHex := FromHex;
     Convert_isBase64 := isBase64;
     Convert_FromBase64 := FromBase64;
     Convert_isBase64Url := isBase64Url;
     Convert_FromBase64Url := FromBase64Url |}.

(** Two PEM objects one after the other: the bytes 01 02 03, then FF. *)
Definition twoObjects : string :=
  "-----BEGIN CERTIFICATE-----
AQID
-----END CERTIFICATE-----
-----BEGIN CERTIFICATE-----
/w==
-----END CERTIFICATE-----
".

End TextSample.

(** ** Sample curves, algorithms and signatures *)
Module Sample.

(** A point-size table as curve-aware callers fill it. *)
Definition namedCurveSize : gmap string Z :=
  {[ "P-256"%string := 32; "P-384"%string := 48; "P-521"%string := 66 ]}.

(** [{ name: "ECDSA", namedCurve: curve }] *)
Definition ecdsa (curve : string) : Algorithm :=
  {[ "name"%string := JsString "ECDSA"; "namedCurve"%string := JsString curve ]}.

(** R = 0 and an S whose first byte is 0x80. *)
Definition R0 : Z := 0.
Definition S0 : Z := 2 ^ 255 + 5.

(** An ECDSASigValue whose r needs 33 bytes. *)
Definition oversized : ECDSASigValue.t :=
  ECDSASigValue.mk (replicate 33 x01) [x07].

End Sample.

(** ** Collaborators of the generator

    Stand-ins that are deterministic and total enough to run [create]: the
    ASN.1 structures are kept as bytes, signing returns a fixed-width value
    computed from the key and the data, and the container holds the
    formatters it is given. *)
Module GeneratorSample.

Definition types : Asn1X509Types :=
  {| AlgorithmIdentifier := string;
     Name := bytes;
     SubjectPublicKeyInfo := bytes;
     AsnExtension := bytes;
     X509Certificate := bytes |}.

Definition bytesOfString (s : string) : bytes := String.list_byte_of_string s.

Definition exportKey (format : string) (key : CryptoKey) : result bytes :=
  if String.eqb format "spki" then Ok (be_bytes 4 (Z.of_N (keyId key)))
  else Throw (TypeError "Unsupported key format").

Definition sign (algorithm : Algorithm) (key : CryptoKey) (data : bytes)
    : result bytes :=
  Ok (rawSignature (Z.of_N (keyId key)) (2 ^ 255 + Z.of_nat (length data)) 32).

(** [hash: "SHA-256"] or [hash: { name: "SHA-256" }] *)
Definition hashName (algorithm : Algorithm) : string :=
  match algorithm !! "hash"%string with
  | Some (JsString h) => h
  | Some (JsNamed h) => h
  | _ => ""
  end.

Definition unknown_algorithm : JsError :=
  Error "Cannot convert WebCrypto algorithm to ASN.1 algorithm".

(** Object identifiers of ecdsa-with-SHA256/384 and
    sha256/512WithRSAEncryption. *)
Definition toAsnAlgorithm (algorithm : Algorithm) : result string :=
  if name_is algorithm "ECDSA" then
    if String.eqb (hashName algorithm) "SHA-256" then Ok "1.2.840.10045.4.3.2"%string
    else if String.eqb (hashName algorithm) "SHA-384" then Ok "1.2.840.10045.4.3.3"%string
    else Throw unknown_algorithm
  else if name_is algorithm "RSASSA-PKCS1-v1_5" then
    if String.eqb (hashName algorithm) "SHA-256" then Ok "1.2.840.113549.1.1.11"%string
    else if String.eqb (hashName algorithm) "SHA-512" then Ok "1.2.840.113549.1.1.13"%string
    else Throw unknown_algorithm
  else Throw unknown_algorithm.

Definition nameBytes (x : X509CertificateCreateParamsName) : result bytes :=
  match x with
  | NameString s => Ok (bytesOfString s)
  | NameJson j => Ok (be_bytes 1 (Z.of_nat (length j)))
  end.

Definition optionalBytes {A : Type} (f : A -> bytes) (x : option A) : bytes :=
  match x with Some a => f a | None => [] end.

Definition serializeTbs (t : asn1X509.TBSCertificate (types := types)) : bytes :=
  be_bytes 1 (asn1X509.version t)
  ++ asn1X509.serialNumber t
  ++ optionalBytes bytesOfString (asn1X509.signature t)
  ++ optionalBytes id (asn1X509.issuer t)
  ++ be_bytes 8 (asn1X509.notBefore (asn1X509.validity t))
  ++ be_bytes 8 (asn1X509.notAfter (asn1X509.validity t))
  ++ optionalBytes id (asn1X509.subject t)
  ++ asn1X509.subjectPublicKeyInfo t
  ++ concat (asn1X509.extensions t).

Definition serializeCertificate (c : asn1X509.Certificate (types := types)) : bytes :=
  serializeTbs (asn1X509.tbsCertificate c)
  ++ optionalBytes bytesOfString (asn1X509.signatureAlgorithm c)
  ++ asn1X509.signatureValue c.

(** A formatter that handles every algorithm and leaves the signature as it
    is. *)
Definition passThrough : IAsnSignatureFormatter :=
  {| toAsnSignature := fun _ signature => Ok (Some signature);
     toWebSignature := fun _ signature => Ok (Some signature) |}.

Definition ecFormatter : IAsnSignatureFormatter :=
  AsnEcSignatureFormatter.formatter Sample.namedCurveSize (codec := Der.codec).

(** Parsing that keeps the bytes. *)
Definition keep (raw : bytes) : result bytes := Ok raw.

(** The collaborators, with the given formatters registered in this order. *)
Definition env (registered : list IAsnSignatureFormatter)
    : Collaborators (types := types) :=
  @Build_Collaborators types
    exportKey                 (* subtle_exportKey *)
    sign                      (* subtle_sign *)
    keep                      (* AsnConvert_parse_Extension *)
    keep                      (* AsnConvert_parse_SubjectPublicKeyInfo *)
    keep                      (* AsnConvert_parse_Name *)
    nameBytes                 (* Name_toArrayBuffer *)
    serializeTbs              (* AsnConvert_serialize_TBSCertificate *)
    serializeCertificate      (* AsnConvert_serialize_Certificate *)
    toAsnAlgorithm            (* AlgorithmProvider_toAsnAlgorithm *)
    (Ok registered)           (* container_resolveAll_signatureFormatters *)
    keep.                     (* X509Certificate_new *)

(** An ECDSA key pair on P-256 and a request for a self-signed certificate
    with serial number 01. *)
Definition ecKeys : CryptoKeyPair.t :=
  CryptoKeyPair.mk {| algorithm := Sample.ecdsa "P-256"; keyId := 1 |}
                   {| algorithm := Sample.ecdsa "P-256"; keyId := 2 |}.

Definition base (signingAlgorithm : Algorithm) : X509CertificateCreateParamsBase :=
  {| serialNumber := "01";
     notBefore := 1577836800000;
     notAfter := 1609459200000;
     extensions := None;
     signingAlgorithm := signingAlgorithm |}.

Definition ecdsaSha256 : Algorithm :=
  {[ "name"%string := JsString "ECDSA"; "hash"%string := JsString "SHA-256" ]}.

Definition selfSigned : X509CertificateCreateSelfSignedParams :=
  {| selfSigned_base := base ecdsaSha256;
     name := Some (NameString "CN=Test");
     keys := ecKeys |}.

(** The same request as [create] receives it. *)
Definition ecRequest : X509CertificateCreateParams :=
  {| create_base := base ecdsaSha256;
     subject := Some (NameString "CN=Test");
     issuer := Some (NameString "CN=Test");
     publicKey := CryptoKeyPair.publicKey ecKeys;
     signingKey := CryptoKeyPair.privateKey ecKeys |}.

(** An RSA key made for SHA-256, and a request that asks for SHA-512. *)
Definition rsaKey : CryptoKey :=
  {| algorithm := {[ "name"%string := JsString "RSASSA-PKCS1-v1_5";
                     "hash"%string := JsNamed "SHA-256";
                     "modulusLength"%string := JsNumber 2048 ]};
     keyId := 3 |}.

Definition rsaSha512 : Algorithm :=
  {[ "name"%string := JsString "RSASSA-PKCS1-v1_5";
     "hash"%string := JsString "SHA-512" ]}.

Definition rsaRequest : X509CertificateCreateParams :=
  {| create_base := base rsaSha512;
     subject := Some (NameString "CN=Test");
     issuer := None;
     publicKey := rsaKey;
     signingKey := rsaKey |}.

End GeneratorSample.

(** ** More requests and collaborators *)
Module MoreSamples.

(** The sample request with another serial number. *)
Definition withSerial (serial : string) : X509CertificateCreateParams :=
  {| create_base :=
       {| serialNumber := serial;
          notBefore := 1577836800000;
          notAfter := 1609459200000;
          extensions := None;
          signingAlgorithm := GeneratorSample.ecdsaSha256 |};
     subject := Some (NameString "CN=Test");
     issuer := Some (NameString "CN=Test");
     publicKey := CryptoKeyPair.publicKey GeneratorSample.ecKeys;
     signingKey := CryptoKeyPair.privateKey GeneratorSample.ecKeys |}.

(** A request whose validity ends before it starts, with two extensions. *)
Definition reversedValidity : X509CertificateCreateParams :=
  {| create_base :=
       {| serialNumber := "0a";
          notBefore := 1609459200000;
          notAfter := 1577836800000;
          extensions := Some [ {| rawData := [x30; x00] |};
                               {| rawData := [x30; x01; x07] |} ];
          signingAlgorithm := GeneratorSample.ecdsaSha256 |};
     subject := None;
     issuer := None;
     publicKey := CryptoKeyPair.publicKey GeneratorSample.ecKeys;
     signingKey := CryptoKeyPair.privateKey GeneratorSample.ecKeys |}.

(** A request whose descriptor names P-521 while the signing key is on
    P-256. *)
Definition otherCurve : X509CertificateCreateParams :=
  {| create_base :=
       GeneratorSample.base
         {[ "name"%string := JsString "ECDSA";
            "hash"%string := JsString "SHA-256";
            "namedCurve"%string := JsString "P-521" ]};
     subject := None;
     issuer := None;
     publicKey := CryptoKeyPair.publicKey GeneratorSample.ecKeys;
     signingKey := CryptoKeyPair.privateKey GeneratorSample.ecKeys |}.

(** Collaborators whose signer rejects every request. *)
Definition rejected : JsError := Error "The operation failed for an operation-specific reason".

Definition failingSigner : Collaborators (types := GeneratorSample.types) :=
  withAlgorithmServices (GeneratorSample.env [GeneratorSample.ecFormatter])
    (fun _ _ _ => Throw rejected) GeneratorSample.toAsnAlgorithm.

End MoreSamples.

(** ** Text encoders

    The encoders that go with the decoders of [TextSample]. *)
Module EncoderSample.

Definition hexChar (v : nat) : ascii :=
  if (v <? 10)%nat then ascii_of_nat (48 + v) else ascii_of_nat (87 + v).

Definition base64CharWith (c62 c63 : nat) (v : nat) : ascii :=
  if (v <? 26)%nat then ascii_of_nat (65 + v)
  else if (v <? 52)%nat then ascii_of_nat (71 + v)
  else if (v <? 62)%nat then ascii_of_nat (v - 4)
  else if (v =? 62)%nat then ascii_of_nat c62
  else ascii_of_nat c63.

Fixpoint hexChars (bs : bytes) : list ascii :=
  match bs with
  | [] => []
  | b :: rest =>
      let n := Der.nat_of_byte b in
      hexChar (n / 16)%nat :: hexChar (n mod 16)%nat :: hexChars rest
  end.

(** Three bytes give four characters; a last group of one or two bytes is
    completed with ['='] when [padded]. *)
Fixpoint base64Chars (ch : nat -> ascii) (padded : bool) (bs : list nat)
    : list ascii :=
  match bs with
  | a :: b :: c :: rest =>
      ch (a / 4)%nat :: ch (16 * (a mod 4) + b / 16)%nat
      :: ch (4 * (b mod 16) + c / 64)%nat :: ch (c mod 64)%nat
      :: base64Chars ch padded rest
  | [a; b] =>
      ch (a / 4)%nat :: ch (16 * (a mod 4) + b / 16)%nat :: ch (4 * (b mod 16))%nat
      :: (if padded then [ascii_of_nat 61] else [])
  | [a] =>
      ch (a / 4)%nat :: ch (16 * (a mod 4))%nat
      :: (if padded then [ascii_of_nat 61; ascii_of_nat 61] else [])
  | [] => []
  end.

Definition ToHex (raw : bytes) : string :=
  String.string_of_list_ascii (hexChars raw).

Definition ToBase64 (raw : bytes) : string :=
  String.string_of_list_ascii
    (base64Chars (base64CharWith 43 47) true (Der.nat_of_byte <$> raw)).

Definition ToBase64Url (raw : bytes) : string :=
  String.string_of_list_ascii
    (base64Chars (base64CharWith 45 95) false (Der.nat_of_byte <$> raw)).

Definition newline : string := String (ascii_of_nat 10) EmptyString.

Definition encode (raw : bytes) (tag : string) : string :=
  String.append "-----BEGIN "
    (String.append tag
       (String.append "-----"
          (String.append newline
             (String.append (ToBase64 raw)
                (String.append newline
                   (String.append "-----END "
                      (String.append tag "-----"))))))).

Definition encoders : TextEncoders :=
  {| PemConverter_encode := encode;
     Convert_ToHex := ToHex;
     Convert_ToBase64 := ToBase64;
     Convert_ToBase64Url := ToBase64Url |}.

(** Three bytes whose base64 text is made of hex digits. *)
Definition looksHex : bytes := [x75; xe6; x9d].

(** Collaborators whose hex decoder fails. *)
Definition strictHex : TextCodecs :=
  {| PemConverter_isPem := TextSample.isPem;
     PemConverter_decode := TextSample.decode;
     Convert_isHex := TextSample.isHex;
     Convert_FromHex := fun s =>
       if Nat.odd (String.length s)
       then Throw (TypeError "Argument 'hexString' has an odd length")
       else TextSample.FromHex s;
     Convert_isBase64 := TextSample.isBase64;
     Convert_FromBase64 := TextSample.FromBase64;
     Convert_isBase64Url := TextSample.isBase64Url;
     Convert_FromBase64Url := TextSample.FromBase64Url |}.

(** Collaborators whose PEM classifier looks at the first characters
    only. *)
Definition prefixPem : TextCodecs :=
  {| PemConverter_isPem := String.prefix "-----BEGIN ";
     PemConverter_decode := TextSample.decode;
     Convert_isHex := TextSample.isHex;
     Convert_FromHex := TextSample.FromHex;
     Convert_isBase64 := TextSample.isBase64;
     Convert_FromBase64 := TextSample.FromBase64;
     Convert_isBase64Url := TextSample.isBase64Url;
     Convert_FromBase64Url := TextSample.FromBase64Url |}.

End EncoderSample.
(** * Properties *)

(** ** Bytes and slices *)

Lemma byte_is_zero_true (b : byte) : byte_is_zero b = true -> b = x00.
Proof. destruct b; simpl; congruence. Qed.

Lemma length_be_bytes (w : nat) (v : Z) : length (be_bytes w v) = w.
Proof.
  revert v; induction w as [|w IH]; intros v; simpl; [reflexivity|].
  rewrite length_app, IH; simpl; lia.
Qed.

Lemma Z_of_byte_of_Z (z : Z) : Z_of_byte (byte_of_Z z) = z mod 256.
Proof.
  unfold Z_of_byte, byte_of_Z.
  pose proof (Z.mod_pos_bound z 256 ltac:(lia)) as Hz.
  destruct (Byte.of_N (Z.to_N (z mod 256))) as [b|] eqn:Hb.
  - simpl. apply Byte.to_of_N in Hb. rewrite Hb. lia.
  - apply Byte.of_N_None_iff in Hb. lia.
Qed.

Lemma be_value_snoc (ds : bytes) (d : byte) :
  be_value (ds ++ [d]) = 256 * be_value ds + Z_of_byte d.
Proof. unfold be_value. rewrite fold_left_app. reflexivity. Qed.

Lemma be_value_be_bytes_mod (w : nat) (v : Z) :
  be_value (be_bytes w v) = v mod 256 ^ Z.of_nat w.
Proof.
  revert v; induction w as [|w IH]; intros v.
  - simpl. rewrite Z.mod_1_r. reflexivity.
  - cbn [be_bytes]. rewrite be_value_snoc, IH, Z_of_byte_of_Z.
    rewrite Nat2Z.inj_succ, Z.pow_succ_r by lia.
    rewrite Z.rem_mul_r by lia. lia.
Qed.

(** A coordinate below 256^w is read back from its w bytes. *)
Lemma be_value_be_bytes (w : nat) (v : Z) :
  0 <= v < 256 ^ Z.of_nat w -> be_value (be_bytes w v) = v.
Proof. intros Hv. rewrite be_value_be_bytes_mod. apply Z.mod_small, Hv. Qed.

Lemma slice_head (b : bytes) (n : Z) :
  0 <= n -> slice b 0 n = take (Z.to_nat n) b.
Proof.
  intros Hn. unfold slice, relativeIndex.
  destruct (Z.ltb_spec 0 0) as [?|_]; [lia|].
  destruct (Z.ltb_spec n 0) as [?|_]; [lia|].
  rewrite (Z.min_l 0) by lia. change (Z.to_nat 0) with O.
  rewrite drop_0, Z.sub_0_r.
  destruct (Z.le_ge_cases n (Z.of_nat (length b))) as [Hle|Hge].
  - rewrite Z.min_l by lia. reflexivity.
  - rewrite Z.min_r by lia. rewrite Nat2Z.id.
    rewrite (take_ge b (Z.to_nat n)) by lia. apply take_ge. lia.
Qed.

Lemma slice_second (b : bytes) (n : Z) :
  0 <= n -> slice b n (n + n) = take (Z.to_nat n) (drop (Z.to_nat n) b).
Proof.
  intros Hn. unfold slice, relativeIndex.
  destruct (Z.ltb_spec n 0) as [?|_]; [lia|].
  destruct (Z.ltb_spec (n + n) 0) as [?|_]; [lia|].
  destruct (Z.le_ge_cases n (Z.of_nat (length b))) as [Hle|Hge].
  - rewrite (Z.min_l n) by lia.
    destruct (Z.le_ge_cases (n + n) (Z.of_nat (length b))) as [Hle2|Hge2].
    + rewrite Z.min_l by lia. f_equal. lia.
    + rewrite Z.min_r by lia.
      rewrite !take_ge; [reflexivity| |]; rewrite length_drop; lia.
  - rewrite (Z.min_r n) by lia. rewrite Nat2Z.id.
    rewrite !drop_ge by lia. rewrite !take_nil. reflexivity.
Qed.

(** ** Padding *)

Lemma removePadding_zeros (data : bytes) :
  data = replicate (length data - length (AsnEcSignatureFormatter.removePadding data)) x00
         ++ AsnEcSignatureFormatter.removePadding data.
Proof.
  induction data as [|b rest IH]; simpl; [reflexivity|].
  destruct (byte_is_zero b) eqn:Hb.
  - apply byte_is_zero_true in Hb; subst b.
    assert (length (AsnEcSignatureFormatter.removePadding rest) <= length rest)%nat as Hlen.
    { rewrite IH at 2. rewrite length_app. lia. }
    replace (S (length rest) - length (AsnEcSignatureFormatter.removePadding rest))%nat
      with (S (length rest - length (AsnEcSignatureFormatter.removePadding rest))) by lia.
    simpl. f_equal. exact IH.
  - simpl. rewrite Nat.sub_diag. reflexivity.
Qed.

Lemma removePadding_length (data : bytes) :
  (length (AsnEcSignatureFormatter.removePadding data) <= length data)%nat.
Proof.
  rewrite (removePadding_zeros data) at 2. rewrite length_app. lia.
Qed.

Lemma removePadding_idem (data : bytes) :
  AsnEcSignatureFormatter.removePadding (AsnEcSignatureFormatter.removePadding data)
  = AsnEcSignatureFormatter.removePadding data.
Proof.
  induction data as [|b rest IH]; simpl; [reflexivity|].
  destruct (byte_is_zero b) eqn:Hb; [exact IH|]. simpl. rewrite Hb. reflexivity.
Qed.

Lemma removePadding_replicate (n : nat) (data : bytes) :
  AsnEcSignatureFormatter.removePadding (replicate n x00 ++ data)
  = AsnEcSignatureFormatter.removePadding data.
Proof. induction n as [|n IH]; simpl; [reflexivity|exact IH]. Qed.

Lemma addPadding_fits (pointSize : Z) (data : bytes) :
  Z.of_nat (length data) <= pointSize ->
  AsnEcSignatureFormatter.addPadding pointSize data
  = Ok (replicate (Z.to_nat pointSize - length data) x00 ++ data).
Proof.
  intros Hfit. unfold AsnEcSignatureFormatter.addPadding, newUint8Array.
  destruct (Z.ltb_spec pointSize 0) as [?|_]; [lia|]. simpl.
  unfold typedArraySet.
  destruct (Z.ltb_spec (pointSize - Z.of_nat (length data)) 0) as [?|_]; [lia|].
  rewrite length_replicate.
  destruct (Z.ltb_spec (Z.of_nat (Z.to_nat pointSize))
              (Z.of_nat (length data) + (pointSize - Z.of_nat (length data)))) as [?|_]; [lia|].
  rewrite take_replicate, drop_replicate.
  replace (Z.to_nat pointSize - (Z.to_nat (pointSize - Z.of_nat (length data)) + length data))%nat
    with O by lia.
  replace (Z.to_nat (pointSize - Z.of_nat (length data)) `min` Z.to_nat pointSize)%nat
    with (Z.to_nat pointSize - length data)%nat by lia.
  simpl. rewrite app_nil_r. reflexivity.
Qed.

Lemma addPadding_overflow (pointSize : Z) (data : bytes) :
  pointSize < Z.of_nat (length data) ->
  exists msg, AsnEcSignatureFormatter.addPadding pointSize data = Throw (RangeError msg).
Proof.
  intros Hbig. unfold AsnEcSignatureFormatter.addPadding, newUint8Array.
  destruct (Z.ltb_spec pointSize 0) as [?|_]; simpl; [eauto|].
  unfold typedArraySet.
  destruct (Z.ltb_spec (pointSize - Z.of_nat (length data)) 0) as [?|?]; [eauto|lia].
Qed.

Lemma addPadding_removePadding (data data' : bytes) (pointSize : Z) :
  Z.of_nat (length data) = pointSize ->
  AsnEcSignatureFormatter.removePadding data' = AsnEcSignatureFormatter.removePadding data ->
  AsnEcSignatureFormatter.addPadding pointSize (AsnEcSignatureFormatter.removePadding data')
  = Ok data.
Proof.
  intros Hlen Heq. rewrite Heq.
  pose proof (removePadding_length data) as Hle.
  rewrite addPadding_fits by lia.
  f_equal. rewrite <- Hlen, Nat2Z.id. symmetry. apply removePadding_zeros.
Qed.

(** ** The reference DER codec *)

Lemma nat_of_byte_of_nat (n : nat) :
  (n < 256)%nat -> Der.nat_of_byte (Der.byte_of_nat n) = n.
Proof.
  intros Hn. unfold Der.nat_of_byte, Der.byte_of_nat, byte_of_Z.
  rewrite Z.mod_small by lia.
  destruct (Byte.of_N (Z.to_N (Z.of_nat n))) as [b|] eqn:Hb.
  - simpl. apply Byte.to_of_N in Hb. rewrite Hb. lia.
  - apply Byte.of_N_None_iff in Hb. lia.
Qed.

Lemma number_snoc (ds : bytes) (d : byte) :
  Der.number (ds ++ [d]) = (256 * Der.number ds + Der.nat_of_byte d)%nat.
Proof. unfold Der.number. rewrite fold_left_app. reflexivity. Qed.

Lemma number_digits (fuel n : nat) :
  (n <= fuel)%nat -> Der.number (Der.digits fuel n) = n.
Proof.
  revert n; induction fuel as [|f IH]; intros n Hn; cbn [Der.digits].
  - unfold Der.number; simpl; lia.
  - destruct (Nat.eqb_spec n 0) as [->|Hnz]; [reflexivity|].
    rewrite number_snoc, nat_of_byte_of_nat by (apply Nat.mod_upper_bound; lia).
    assert (n / 256 < n)%nat by (apply Nat.div_lt; lia).
    rewrite IH by lia.
    pose proof (Nat.div_mod_eq n 256). lia.
Qed.

Lemma length_digits (fuel n k : nat) :
  Z.of_nat n < 256 ^ Z.of_nat k -> (length (Der.digits fuel n) <= k)%nat.
Proof.
  revert n k; induction fuel as [|f IH]; intros n k Hn; cbn [Der.digits];
    [simpl; lia|].
  destruct (Nat.eqb_spec n 0) as [->|Hnz]; [simpl; lia|].
  destruct k as [|k]; [simpl in Hn; lia|].
  rewrite length_app; cbn [length].
  enough (length (Der.digits f (n / 256)) <= k)%nat by lia.
  apply IH. rewrite Nat2Z.inj_div. simpl Z.of_nat at 2.
  apply Z.div_lt_upper_bound; [lia|].
  rewrite Nat2Z.inj_succ, Z.pow_succ_r in Hn by lia. lia.
Qed.

Lemma decodeLength_encodeLength (n : nat) (rest : bytes) :
  Z.of_nat n < 256 ^ 127 ->
  Der.decodeLength (Der.encodeLength n ++ rest) = Some (n, rest).
Proof.
  intros Hn. unfold Der.encodeLength.
  destruct (Nat.ltb_spec n 128) as [Hs|Hl].
  - simpl. rewrite nat_of_byte_of_nat by lia.
    destruct (Nat.ltb_spec n 128); [reflexivity|lia].
  - pose proof (length_digits n n 127 Hn) as Hlen.
    cbn [Der.decodeLength app]. rewrite nat_of_byte_of_nat by lia.
    destruct (Nat.ltb_spec (128 + length (Der.digits n n)) 128) as [?|_]; [lia|].
    replace (128 + length (Der.digits n n) - 128)%nat
      with (length (Der.digits n n)) by lia.
    rewrite length_app.
    destruct (Nat.ltb_spec (length (Der.digits n n) + length rest)
                (length (Der.digits n n))) as [?|_]; [lia|].
    rewrite take_app_length, drop_app_length, number_digits by lia.
    reflexivity.
Qed.

Lemma untlv_tlv (tag : byte) (content rest : bytes) :
  Z.of_nat (length content) < 256 ^ 127 ->
  Der.untlv tag (Der.tlv tag content ++ rest) = Some (content, rest).
Proof.
  intros Hn. unfold Der.tlv, Der.untlv. cbn [app].
  replace (Byte.eqb tag tag) with true
    by (symmetry; apply Byte.byte_dec_lb; reflexivity).
  rewrite <- app_assoc, decodeLength_encodeLength by exact Hn.
  rewrite length_app.
  destruct (Nat.ltb_spec (length content + length rest) (length content)) as [?|_]; [lia|].
  rewrite take_app_length, drop_app_length. reflexivity.
Qed.

Lemma length_encodeLength (n : nat) :
  Z.of_nat n < 256 ^ 127 -> (length (Der.encodeLength n) <= 128)%nat.
Proof.
  intros Hn. unfold Der.encodeLength.
  destruct (Nat.ltb_spec n 128); simpl; [lia|].
  pose proof (length_digits n n 127 Hn). lia.
Qed.

Lemma length_tlv (tag : byte) (content : bytes) :
  Z.of_nat (length content) < 256 ^ 127 ->
  (length (Der.tlv tag content) <= 129 + length content)%nat.
Proof.
  intros Hn. unfold Der.tlv. simpl. rewrite length_app.
  pose proof (length_encodeLength _ Hn). lia.
Qed.

(** The codec gives back what it was given, whenever the two integers
    are shorter than 2^64 bytes. *)
Lemma der_parse_serialize (v : ECDSASigValue.t) :
  Z.of_nat (length (ECDSASigValue.r v)) < 2 ^ 64 ->
  Z.of_nat (length (ECDSASigValue.s v)) < 2 ^ 64 ->
  Der.parse (Der.serialize v) = Ok v.
Proof.
  intros Hr Hs.
  assert (2 ^ 64 + 2 ^ 64 + 258 < 256 ^ 127) as Hbig by (vm_compute; reflexivity).
  assert (Z.of_nat (length (ECDSASigValue.r v)) < 256 ^ 127) as Hr' by lia.
  assert (Z.of_nat (length (ECDSASigValue.s v)) < 256 ^ 127) as Hs' by lia.
  unfold Der.parse, Der.serialize.
  rewrite <- (app_nil_r (Der.tlv x30 _)).
  rewrite untlv_tlv.
  - rewrite untlv_tlv by exact Hr'.
    rewrite <- (app_nil_r (Der.tlv x02 (ECDSASigValue.s v))).
    rewrite untlv_tlv by exact Hs'.
    destruct v; reflexivity.
  - rewrite length_app.
    pose proof (length_tlv x02 _ Hr'). pose proof (length_tlv x02 _ Hs'). lia.
Qed.

Lemma der_preserves_magnitudes (P : Z) :
  P < 2 ^ 64 -> preserves_magnitudes Der.codec P.
Proof.
  intros HP v Hr Hs. exists v. split; [|split; reflexivity].
  apply der_parse_serialize; lia.
Qed.

Lemma removePadding_signedContent (magnitude : bytes) :
  AsnEcSignatureFormatter.removePadding (Der.signedContent magnitude)
  = AsnEcSignatureFormatter.removePadding magnitude.
Proof.
  destruct magnitude as [|b rest]; [reflexivity|].
  unfold Der.signedContent. destruct (128 <=? Der.nat_of_byte b)%nat; reflexivity.
Qed.

Lemma length_signedContent (magnitude : bytes) :
  (length (Der.signedContent magnitude) <= S (length magnitude))%nat.
Proof.
  destruct magnitude as [|b rest]; [simpl; lia|].
  unfold Der.signedContent.
  destruct (128 <=? Der.nat_of_byte b)%nat; cbn [length]; lia.
Qed.

(** The canonical codec gives back the magnitudes with, at most, one zero
    byte in front. *)
Lemma canonical_preserves_magnitudes (P : Z) :
  P < 2 ^ 63 -> preserves_magnitudes Der.canonical P.
Proof.
  intros HP v Hr Hs.
  exists (ECDSASigValue.mk (Der.signedContent (ECDSASigValue.r v))
                           (Der.signedContent (ECDSASigValue.s v))).
  split; [|split; apply removePadding_signedContent].
  pose proof (length_signedContent (ECDSASigValue.r v)) as Hr'.
  pose proof (length_signedContent (ECDSASigValue.s v)) as Hs'.
  assert (2 ^ 63 < 2 ^ 64 - 1) by (vm_compute; reflexivity).
  change (parse (serialize v))
    with (Der.parse (Der.serialize
            (ECDSASigValue.mk (Der.signedContent (ECDSASigValue.r v))
                              (Der.signedContent (ECDSASigValue.s v))))).
  remember (Der.signedContent (ECDSASigValue.r v)) as r'.
  remember (Der.signedContent (ECDSASigValue.s v)) as s'.
  apply der_parse_serialize; cbn [ECDSASigValue.r ECDSASigValue.s]; lia.
Qed.

(** On the canonical codec, a coordinate with its first bit set travels
    with a zero byte in front and comes back without it. *)
Example canonical_roundtrip :
  @AsnEcSignatureFormatter.toAsnSignature Sample.namedCurveSize Der.canonical
    (Sample.ecdsa "P-256") (rawSignature Sample.R0 Sample.S0 32)
  = Ok (Some ([x30; x26; x02; x01; x00; x02; x21; x00] ++ be_bytes 32 Sample.S0)) /\
  @AsnEcSignatureFormatter.toWebSignature Sample.namedCurveSize Der.canonical
    (Sample.ecdsa "P-256")
    ([x30; x26; x02; x01; x00; x02; x21; x00] ++ be_bytes 32 Sample.S0)
  = Ok (Some (rawSignature Sample.R0 Sample.S0 32)).
Proof. split; vm_compute; reflexivity. Qed.

(** ** The ECDSA formatter *)

Lemma pointSizeOf_registered (namedCurveSize : gmap string Z)
    (algorithm : Algorithm) (curve : string) (P : Z) :
  algorithm !! "namedCurve"%string = Some (JsString curve) ->
  namedCurveSize !! curve = Some P ->
  P <> 0 ->
  AsnEcSignatureFormatter.pointSizeOf namedCurveSize algorithm = P.
Proof.
  intros Hcurve Htable HP. unfold AsnEcSignatureFormatter.pointSizeOf.
  rewrite Hcurve. simpl. rewrite Htable. simpl.
  destruct (Z.eqb_spec P 0); [contradiction|reflexivity].
Qed.

Lemma pointSizeOf_unregistered (namedCurveSize : gmap string Z)
    (algorithm : Algorithm) (curve : string) :
  algorithm !! "namedCurve"%string = Some (JsString curve) ->
  namedCurveSize !! curve = None ->
  AsnEcSignatureFormatter.pointSizeOf namedCurveSize algorithm = 32.
Proof.
  intros Hcurve Htable. unfold AsnEcSignatureFormatter.pointSizeOf.
  rewrite Hcurve. simpl. rewrite Htable. reflexivity.
Qed.

Lemma addPadding_throws_RangeError (pointSize : Z) (data : bytes) (e : JsError) :
  AsnEcSignatureFormatter.addPadding pointSize data = Throw e ->
  exists msg, e = RangeError msg.
Proof.
  unfold AsnEcSignatureFormatter.addPadding, newUint8Array, typedArraySet.
  destruct (pointSize <? 0); simpl; [intros [= <-]; eauto|].
  destruct (_ <? 0); [intros [= <-]; eauto|].
  destruct (_ <? _); [intros [= <-]; eauto|discriminate].
Qed.

(** What [toAsnSignature] answers for an ECDSA algorithm, in terms of the
    point size. *)
Lemma toAsnSignature_ecdsa (namedCurveSize : gmap string Z) (codec : AsnConvert)
    (algorithm : Algorithm) (signature : bytes) :
  name_is algorithm "ECDSA" = true ->
  AsnEcSignatureFormatter.toAsnSignature namedCurveSize algorithm signature
  = Ok (Some (serialize (ECDSASigValue.mk
      (AsnEcSignatureFormatter.removePadding
         (slice signature 0 (AsnEcSignatureFormatter.pointSizeOf namedCurveSize algorithm)))
      (AsnEcSignatureFormatter.removePadding
         (slice signature (AsnEcSignatureFormatter.pointSizeOf namedCurveSize algorithm)
            (AsnEcSignatureFormatter.pointSizeOf namedCurveSize algorithm
             + AsnEcSignatureFormatter.pointSizeOf namedCurveSize algorithm)))))).
Proof.
  intros Hname. unfold AsnEcSignatureFormatter.toAsnSignature.
  rewrite Hname. reflexivity.
Qed.

(** The two halves of a signature of twice the point size. *)
Lemma slice_halves (r s : bytes) (P : Z) :
  0 <= P -> length r = Z.to_nat P -> length s = Z.to_nat P ->
  slice (r ++ s) 0 P = r /\ slice (r ++ s) P (P + P) = s.
Proof.
  intros HP Hr Hs. rewrite slice_head, slice_second by exact HP. split.
  - rewrite <- Hr. apply take_app_length.
  - rewrite <- Hr, drop_app_length, Hr, <- Hs. apply firstn_all.
Qed.

(** Round trip on the two halves, for any point size the algorithm
    resolves to. *)
Lemma roundtrip_halves (namedCurveSize : gmap string Z) (codec : AsnConvert)
    (algorithm : Algorithm) (r s : bytes) :
  name_is algorithm "ECDSA" = true ->
  0 <= AsnEcSignatureFormatter.pointSizeOf namedCurveSize algorithm ->
  length r = Z.to_nat (AsnEcSignatureFormatter.pointSizeOf namedCurveSize algorithm) ->
  length s = Z.to_nat (AsnEcSignatureFormatter.pointSizeOf namedCurveSize algorithm) ->
  preserves_magnitudes codec (AsnEcSignatureFormatter.pointSizeOf namedCurveSize algorithm) ->
  exists asn,
    AsnEcSignatureFormatter.toAsnSignature namedCurveSize algorithm (r ++ s)
      = Ok (Some asn) /\
    AsnEcSignatureFormatter.toWebSignature namedCurveSize algorithm asn
      = Ok (Some (r ++ s)).
Proof.
  intros Hname HP Hr Hs Hcodec.
  rewrite toAsnSignature_ecdsa by exact Hname.
  destruct (slice_halves r s _ HP Hr Hs) as [-> ->].
  eexists; split; [reflexivity|].
  unfold AsnEcSignatureFormatter.toWebSignature. rewrite Hname.
  pose proof (removePadding_length r). pose proof (removePadding_length s).
  destruct (Hcodec (ECDSASigValue.mk (AsnEcSignatureFormatter.removePadding r)
                                     (AsnEcSignatureFormatter.removePadding s)))
    as (v' & Hparse & Hr' & Hs'); simpl; [lia|lia|].
  simpl in Hr', Hs'. rewrite removePadding_idem in Hr', Hs'.
  rewrite Hparse. simpl.
  rewrite (addPadding_removePadding r) by (exact Hr' || lia). simpl.
  rewrite (addPadding_removePadding s) by (exact Hs' || lia). reflexivity.
Qed.

(** C1. For a curve registered with a positive point size P and coordinates
    0 <= R, S < 2^(8P), converting the raw signature R||S to the ASN.1 form
    and back gives the raw signature again, R = 0, S = 0 and a set top bit
    included; the ASN.1 codec is assumed to give back the magnitudes it was
    given, up to leading zero bytes. *)
Theorem signature_roundtrip (namedCurveSize : gmap string Z) (codec : AsnConvert)
    (algorithm : Algorithm) (curve : string) (P R S : Z) :
  name_is algorithm "ECDSA" = true ->
  algorithm !! "namedCurve"%string = Some (JsString curve) ->
  namedCurveSize !! curve = Some P ->
  0 < P ->
  0 <= R < 2 ^ (8 * P) ->
  0 <= S < 2 ^ (8 * P) ->
  preserves_magnitudes codec P ->
  (exists asn,
     AsnEcSignatureFormatter.toAsnSignature namedCurveSize algorithm (rawSignature R S P)
       = Ok (Some asn) /\
     AsnEcSignatureFormatter.toWebSignature namedCurveSize algorithm asn
       = Ok (Some (rawSignature R S P))) /\
  Z.of_nat (length (rawSignature R S P)) = 2 * P /\
  be_value (take (Z.to_nat P) (rawSignature R S P)) = R /\
  be_value (drop (Z.to_nat P) (rawSignature R S P)) = S.
Proof.
  intros Hname Hcurve Htable HP HR HS Hcodec.
  pose proof (pointSizeOf_registered _ _ _ _ Hcurve Htable ltac:(lia)) as Hsize.
  assert (256 ^ Z.of_nat (Z.to_nat P) = 2 ^ (8 * P)) as Hpow.
  { rewrite Z2Nat.id by lia. change 256 with (2 ^ 8). rewrite <- Z.pow_mul_r by lia.
    reflexivity. }
  unfold rawSignature. split; [|split; [|split]].
  - apply roundtrip_halves; rewrite ?Hsize, ?length_be_bytes; auto; lia.
  - rewrite length_app, !length_be_bytes. lia.
  - rewrite <- (length_be_bytes (Z.to_nat P) R) at 1. rewrite take_app_length.
    apply be_value_be_bytes. lia.
  - rewrite <- (length_be_bytes (Z.to_nat P) R) at 1. rewrite drop_app_length.
    apply be_value_be_bytes. lia.
Qed.

Lemma signature_roundtrip_witness :
  (exists asn,
     @AsnEcSignatureFormatter.toAsnSignature Sample.namedCurveSize Der.codec
       (Sample.ecdsa "P-256") (rawSignature Sample.R0 Sample.S0 32) = Ok (Some asn) /\
     @AsnEcSignatureFormatter.toWebSignature Sample.namedCurveSize Der.codec
       (Sample.ecdsa "P-256") asn = Ok (Some (rawSignature Sample.R0 Sample.S0 32))) /\
  Z.of_nat (length (rawSignature Sample.R0 Sample.S0 32)) = 2 * 32 /\
  be_value (take (Z.to_nat 32) (rawSignature Sample.R0 Sample.S0 32)) = Sample.R0 /\
  be_value (drop (Z.to_nat 32) (rawSignature Sample.R0 Sample.S0 32)) = Sample.S0.
Proof.
  apply (signature_roundtrip Sample.namedCurveSize Der.codec
           (Sample.ecdsa "P-256") "P-256" 32 Sample.R0 Sample.S0).
  - reflexivity.
  - reflexivity.
  - reflexivity.
  - lia.
  - unfold Sample.R0. lia.
  - unfold Sample.S0. lia.
  - apply der_preserves_magnitudes. lia.
Defined.

(** C5. A curve name without an entry in the point-size table resolves to
    the point size 32 in both directions: a 64-byte raw signature is split
    into two 32-byte halves, a parsed pair of integers is padded to 32 bytes
    each, and with a codec that keeps magnitudes the 64 bytes come back. *)
Theorem unregistered_curve_uses_32 (namedCurveSize : gmap string Z)
    (codec : AsnConvert) (algorithm : Algorithm) (curve : string) :
  name_is algorithm "ECDSA" = true ->
  algorithm !! "namedCurve"%string = Some (JsString curve) ->
  namedCurveSize !! curve = None ->
  AsnEcSignatureFormatter.pointSizeOf namedCurveSize algorithm
    = AsnEcSignatureFormatter.defaultNamedCurveSize /\
  AsnEcSignatureFormatter.defaultNamedCurveSize = 32 /\
  (forall r s : bytes, length r = 32%nat -> length s = 32%nat ->
     AsnEcSignatureFormatter.toAsnSignature namedCurveSize algorithm (r ++ s)
     = Ok (Some (serialize (ECDSASigValue.mk
                   (AsnEcSignatureFormatter.removePadding r)
                   (AsnEcSignatureFormatter.removePadding s))))) /\
  (forall (asn : bytes) (v : ECDSASigValue.t),
     parse asn = Ok v ->
     (length (AsnEcSignatureFormatter.removePadding (ECDSASigValue.r v)) <= 32)%nat ->
     (length (AsnEcSignatureFormatter.removePadding (ECDSASigValue.s v)) <= 32)%nat ->
     exists r s : bytes,
       AsnEcSignatureFormatter.toWebSignature namedCurveSize algorithm asn
         = Ok (Some (r ++ s)) /\
       length r = 32%nat /\ length s = 32%nat /\
       AsnEcSignatureFormatter.removePadding r
         = AsnEcSignatureFormatter.removePadding (ECDSASigValue.r v) /\
       AsnEcSignatureFormatter.removePadding s
         = AsnEcSignatureFormatter.removePadding (ECDSASigValue.s v)) /\
  (preserves_magnitudes codec 32 ->
   forall r s : bytes, length r = 32%nat -> length s = 32%nat ->
     exists asn,
       AsnEcSignatureFormatter.toAsnSignature namedCurveSize algorithm (r ++ s)
         = Ok (Some asn) /\
       AsnEcSignatureFormatter.toWebSignature namedCurveSize algorithm asn
         = Ok (Some (r ++ s))).
Proof.
  intros Hname Hcurve Htable.
  pose proof (pointSizeOf_unregistered _ _ _ Hcurve Htable) as Hsize.
  split; [exact Hsize|]. split; [reflexivity|]. split; [|split].
  - intros r s Hr Hs. rewrite toAsnSignature_ecdsa by exact Hname.
    rewrite Hsize.
    destruct (slice_halves r s 32 ltac:(lia) Hr Hs) as [-> ->]. reflexivity.
  - intros asn v Hparse Hr Hs.
    unfold AsnEcSignatureFormatter.toWebSignature.
    rewrite Hname, Hparse, Hsize. simpl bind.
    rewrite !addPadding_fits by lia. simpl bind. unfold combine.
    eexists _, _. split; [reflexivity|].
    rewrite !length_app, !length_replicate.
    split; [lia|]. split; [lia|].
    split; rewrite removePadding_replicate; apply removePadding_idem.
  - intros Hcodec r s Hr Hs.
    apply roundtrip_halves; rewrite ?Hsize; auto; lia.
Qed.

Lemma unregistered_curve_uses_32_witness :
  AsnEcSignatureFormatter.pointSizeOf Sample.namedCurveSize (Sample.ecdsa "brainpoolP256r1")
    = 32 /\
  @AsnEcSignatureFormatter.toAsnSignature Sample.namedCurveSize Der.codec
    (Sample.ecdsa "brainpoolP256r1") (rawSignature Sample.R0 Sample.S0 32)
  = Ok (Some (Der.serialize (ECDSASigValue.mk
       (AsnEcSignatureFormatter.removePadding (be_bytes 32 Sample.R0))
       (AsnEcSignatureFormatter.removePadding (be_bytes 32 Sample.S0))))) /\
  exists asn,
    @AsnEcSignatureFormatter.toAsnSignature Sample.namedCurveSize Der.codec
      (Sample.ecdsa "brainpoolP256r1") (rawSignature Sample.R0 Sample.S0 32)
      = Ok (Some asn) /\
    @AsnEcSignatureFormatter.toWebSignature Sample.namedCurveSize Der.codec
      (Sample.ecdsa "brainpoolP256r1") asn
      = Ok (Some (rawSignature Sample.R0 Sample.S0 32)).
Proof.
  pose proof (unregistered_curve_uses_32 Sample.namedCurveSize Der.codec
                (Sample.ecdsa "brainpoolP256r1") "brainpoolP256r1"
                eq_refl eq_refl eq_refl) as (Hsize & Hdef & Hasn & _ & Hback).
  split; [|split].
  - rewrite Hsize. exact Hdef.
  - apply (Hasn (be_bytes 32 Sample.R0) (be_bytes 32 Sample.S0));
      apply length_be_bytes.
  - apply (Hback (der_preserves_magnitudes 32 ltac:(lia))
             (be_bytes 32 Sample.R0) (be_bytes 32 Sample.S0));
      apply length_be_bytes.
Defined.

(** C8. In [toWebSignature], when an integer of the parsed signature still
    has more bytes than the point size after its leading zero bytes are
    removed, the call throws (a RangeError, raised by the write into the
    point-size array): no truncated signature is returned. *)
Theorem oversized_integer_is_rejected (namedCurveSize : gmap string Z)
    (codec : AsnConvert) (algorithm : Algorithm) (asn : bytes)
    (v : ECDSASigValue.t) :
  name_is algorithm "ECDSA" = true ->
  parse asn = Ok v ->
  AsnEcSignatureFormatter.pointSizeOf namedCurveSize algorithm
    < Z.of_nat (length (AsnEcSignatureFormatter.removePadding (ECDSASigValue.r v)))
  \/ AsnEcSignatureFormatter.pointSizeOf namedCurveSize algorithm
    < Z.of_nat (length (AsnEcSignatureFormatter.removePadding (ECDSASigValue.s v))) ->
  exists msg,
    AsnEcSignatureFormatter.toWebSignature namedCurveSize algorithm asn
    = Throw (RangeError msg).
Proof.
  intros Hname Hparse Hbig.
  unfold AsnEcSignatureFormatter.toWebSignature. rewrite Hname, Hparse. simpl bind.
  destruct Hbig as [Hr|Hs].
  - destruct (addPadding_overflow _ _ Hr) as [msg ->]. simpl. eauto.
  - destruct (AsnEcSignatureFormatter.addPadding _
                (AsnEcSignatureFormatter.removePadding (ECDSASigValue.r v)))
      as [r|e] eqn:Hr; simpl.
    + destruct (addPadding_overflow _ _ Hs) as [msg ->]. simpl. eauto.
    + destruct (addPadding_throws_RangeError _ _ _ Hr) as [msg ->]. eauto.
Qed.

Lemma oversized_integer_is_rejected_witness :
  exists msg,
    @AsnEcSignatureFormatter.toWebSignature Sample.namedCurveSize Der.codec
      (Sample.ecdsa "P-256") (Der.serialize Sample.oversized)
    = Throw (RangeError msg).
Proof.
  apply (oversized_integer_is_rejected Sample.namedCurveSize Der.codec
           (Sample.ecdsa "P-256") (Der.serialize Sample.oversized) Sample.oversized).
  - reflexivity.
  - reflexivity.
  - left. vm_compute. reflexivity.
Defined.

(** C10. [toAsnSignature] never looks at the length of the raw signature.
    For an ECDSA algorithm and any byte sequence it returns the
    serialisation of the two slices at the R and S positions with their
    leading zero bytes removed; with a point size P >= 0 these are the
    first P bytes and the next P bytes, as far as they exist, so that an
    input of at most P bytes leaves S empty, the empty input leaves both
    empty, and bytes beyond 2P change nothing. *)
Theorem toAsnSignature_ignores_length (namedCurveSize : gmap string Z)
    (codec : AsnConvert) (algorithm : Algorithm) (signature : bytes) :
  name_is algorithm "ECDSA" = true ->
  (exists r s : bytes,
     AsnEcSignatureFormatter.toAsnSignature namedCurveSize algorithm signature
       = Ok (Some (serialize (ECDSASigValue.mk r s))) /\
     r = AsnEcSignatureFormatter.removePadding
           (slice signature 0 (AsnEcSignatureFormatter.pointSizeOf namedCurveSize algorithm)) /\
     s = AsnEcSignatureFormatter.removePadding
           (slice signature (AsnEcSignatureFormatter.pointSizeOf namedCurveSize algorithm)
              (AsnEcSignatureFormatter.pointSizeOf namedCurveSize algorithm
               + AsnEcSignatureFormatter.pointSizeOf namedCurveSize algorithm)) /\
     (length r <= length signature)%nat /\
     (length s <= length signature)%nat /\
     (0 <= AsnEcSignatureFormatter.pointSizeOf namedCurveSize algorithm ->
      r = AsnEcSignatureFormatter.removePadding
            (take (Z.to_nat (AsnEcSignatureFormatter.pointSizeOf namedCurveSize algorithm))
               signature) /\
      s = AsnEcSignatureFormatter.removePadding
            (take (Z.to_nat (AsnEcSignatureFormatter.pointSizeOf namedCurveSize algorithm))
               (drop (Z.to_nat (AsnEcSignatureFormatter.pointSizeOf namedCurveSize algorithm))
                  signature)) /\
      (Z.of_nat (length signature)
         <= AsnEcSignatureFormatter.pointSizeOf namedCurveSize algorithm -> s = []) /\
      (signature = [] -> r = [] /\ s = []))) /\
  (0 <= AsnEcSignatureFormatter.pointSizeOf namedCurveSize algorithm ->
   2 * AsnEcSignatureFormatter.pointSizeOf namedCurveSize algorithm
     <= Z.of_nat (length signature) ->
   forall extra : bytes,
     AsnEcSignatureFormatter.toAsnSignature namedCurveSize algorithm (signature ++ extra)
     = AsnEcSignatureFormatter.toAsnSignature namedCurveSize algorithm signature).
Proof.
  intros Hname.
  set (P := AsnEcSignatureFormatter.pointSizeOf namedCurveSize algorithm).
  split.
  - eexists _, _. split; [apply toAsnSignature_ecdsa, Hname|].
    fold P. split; [reflexivity|]. split; [reflexivity|].
    split; [|split].
    + etransitivity; [apply removePadding_length|].
      unfold slice. rewrite length_take, length_drop. lia.
    + etransitivity; [apply removePadding_length|].
      unfold slice. rewrite length_take, length_drop. lia.
    + intros HP. rewrite slice_head, slice_second by exact HP.
      split; [reflexivity|]. split; [reflexivity|]. split.
      * intros Hshort. rewrite drop_ge by lia. rewrite take_nil. reflexivity.
      * intros ->. rewrite drop_nil, !take_nil. split; reflexivity.
  - intros HP Hlong extra.
    rewrite !toAsnSignature_ecdsa by exact Hname. fold P.
    rewrite !slice_head, !slice_second by exact HP.
    rewrite take_app_le by lia.
    rewrite drop_app_le by lia.
    rewrite take_app_le by (rewrite length_drop; lia).
    reflexivity.
Qed.

Lemma toAsnSignature_ignores_length_witness :
  @AsnEcSignatureFormatter.toAsnSignature Sample.namedCurveSize Der.codec
    (Sample.ecdsa "P-256") [x00; x2a]
  = Ok (Some (Der.serialize (ECDSASigValue.mk [x2a] []))) /\
  @AsnEcSignatureFormatter.toAsnSignature Sample.namedCurveSize Der.codec
    (Sample.ecdsa "P-256") (rawSignature Sample.R0 Sample.S0 32 ++ [x01; x02; x03])
  = @AsnEcSignatureFormatter.toAsnSignature Sample.namedCurveSize Der.codec
      (Sample.ecdsa "P-256") (rawSignature Sample.R0 Sample.S0 32).
Proof.
  split.
  - destruct (toAsnSignature_ignores_length Sample.namedCurveSize Der.codec
                (Sample.ecdsa "P-256") [x00; x2a] eq_refl)
      as [(r & s & Hasn & -> & -> & _) _].
    exact Hasn.
  - destruct (toAsnSignature_ignores_length Sample.namedCurveSize Der.codec
                (Sample.ecdsa "P-256") (rawSignature Sample.R0 Sample.S0 32) eq_refl)
      as [_ Hextra].
    apply Hextra; vm_compute; congruence.
Defined.

(** ** The decoder *)

Section DecoderProperties.
Context {codecs : TextCodecs}.

(** C2. Bytes are returned unchanged.  A text is decoded by the first of
    PEM, hex, base64, base64url whose classifier accepts it, so a text that
    is hex and also base64 is decoded as hex; a text none accepts raises the
    TypeError that lists the formats. *)
Theorem toArrayBuffer_priority :
  (forall raw : bytes, PemData.toArrayBuffer (BufferSource raw) = Ok (Some raw)) /\
  (forall text : string, PemData.toArrayBuffer (Text text) = decodeByPriority text) /\
  (forall text : string,
     PemConverter_isPem text = true ->
     PemData.toArrayBuffer (Text text)
     = (objects <- PemConverter_decode text ;; Ok (head objects))) /\
  (forall text : string,
     PemConverter_isPem text = false -> Convert_isHex text = true ->
     PemData.toArrayBuffer (Text text) = (b <- Convert_FromHex text ;; Ok (Some b))) /\
  (forall text : string,
     PemConverter_isPem text = false -> Convert_isHex text = false ->
     Convert_isBase64 text = true ->
     PemData.toArrayBuffer (Text text) = (b <- Convert_FromBase64 text ;; Ok (Some b))) /\
  (forall text : string,
     PemConverter_isPem text = false -> Convert_isHex text = false ->
     Convert_isBase64 text = false -> Convert_isBase64Url text = true ->
     PemData.toArrayBuffer (Text text) = (b <- Convert_FromBase64Url text ;; Ok (Some b))) /\
  (forall text : string,
     PemConverter_isPem text = false -> Convert_isHex text = false ->
     Convert_isBase64 text = false -> Convert_isBase64Url text = false ->
     PemData.toArrayBuffer (Text text)
     = Throw (TypeError
         "Unsupported format of 'raw' argument. Must be one of DER, PEM, HEX, Base64, or Base4Url")).
Proof.
  split; [reflexivity|]. split.
  - intros text. unfold PemData.toArrayBuffer, decodeByPriority, priority.
    cbn [find classifier].
    destruct (PemConverter_isPem text).
    { cbn [decoder]. destruct (PemConverter_decode text) as [objects|e]; simpl;
        rewrite ?head_lookup; reflexivity. }
    destruct (Convert_isHex text); [reflexivity|].
    destruct (Convert_isBase64 text); [reflexivity|].
    destruct (Convert_isBase64Url text); reflexivity.
  - repeat split; intros text; unfold PemData.toArrayBuffer; intros;
      repeat match goal with H : _ = _ |- _ => rewrite H; clear H end;
      try reflexivity.
    destruct (PemConverter_decode text) as [objects|e]; simpl;
      rewrite ?head_lookup; reflexivity.
Qed.

(** C9. When the text is PEM and holds several objects, the decoder returns
    the bytes of the first one and nothing of the others, and the
    constructor hands exactly these bytes on to be stored. *)
Theorem toArrayBuffer_first_pem_object (text : string) (first : bytes)
    (others : list bytes) :
  PemConverter_isPem text = true ->
  PemConverter_decode text = Ok (first :: others) ->
  PemData.toArrayBuffer (Text text) = Ok (Some first) /\
  forall (T D : Type) (AsnData_ofRaw : option bytes -> result D)
         (AsnData_ofAsn : T -> result D),
    PemData.new AsnData_ofRaw AsnData_ofAsn (inl (Text text))
    = AsnData_ofRaw (Some first).
Proof.
  intros Hpem Hdecode.
  assert (PemData.toArrayBuffer (Text text) = Ok (Some first)) as Hbuf.
  { unfold PemData.toArrayBuffer. rewrite Hpem, Hdecode. reflexivity. }
  split; [exact Hbuf|].
  intros T D ofRaw ofAsn. unfold PemData.new. rewrite Hbuf. reflexivity.
Qed.

End DecoderProperties.

Lemma toArrayBuffer_priority_witness :
  TextSample.isHex "dead" = true /\
  TextSample.isBase64 "dead" = true /\
  @PemData.toArrayBuffer TextSample.codecs (Text "dead") = Ok (Some [xde; xad]) /\
  @PemData.toArrayBuffer TextSample.codecs (Text "_w") = Ok (Some [xff]) /\
  exists msg,
    @PemData.toArrayBuffer TextSample.codecs (Text "no format") = Throw (TypeError msg).
Proof.
  destruct (@toArrayBuffer_priority TextSample.codecs)
    as (_ & _ & _ & Hhex & _ & Hurl & Hnone).
  split; [reflexivity|]. split; [reflexivity|]. split; [|split].
  - rewrite (Hhex "dead"%string eq_refl eq_refl). reflexivity.
  - rewrite (Hurl "_w"%string eq_refl eq_refl eq_refl eq_refl). reflexivity.
  - eexists. apply (Hnone "no format"%string); reflexivity.
Defined.

Lemma toArrayBuffer_first_pem_object_witness :
  @PemData.toArrayBuffer TextSample.codecs (Text TextSample.twoObjects)
  = Ok (Some [x01; x02; x03]).
Proof.
  apply (@toArrayBuffer_first_pem_object TextSample.codecs
           TextSample.twoObjects [x01; x02; x03] [[xff]]); reflexivity.
Defined.

(** ** The generator *)

Section GeneratorProperties.
Context {types : Asn1X509Types} {codecs : TextCodecs} {env : Collaborators}.

Lemma firstAsnSignature_declined (fs rest : list IAsnSignatureFormatter)
    (algorithm : Algorithm) (signature : bytes) :
  Forall (declines algorithm signature) fs ->
  X509CertificateGenerator.firstAsnSignature (fs ++ rest) algorithm signature
  = X509CertificateGenerator.firstAsnSignature rest algorithm signature.
Proof.
  induction 1 as [|f fs Hf _ IH]; simpl; [reflexivity|].
  unfold declines in Hf. rewrite Hf. simpl. exact IH.
Qed.

Lemma firstAsnSignature_all_declined (fs : list IAsnSignatureFormatter)
    (algorithm : Algorithm) (signature : bytes) :
  Forall (declines algorithm signature) fs ->
  X509CertificateGenerator.firstAsnSignature fs algorithm signature = Ok None.
Proof.
  intros Hfs. rewrite <- (app_nil_r fs).
  rewrite firstAsnSignature_declined by exact Hfs. reflexivity.
Qed.

(** The loop over the reversed registry stops at the most recently
    registered formatter that does not decline. *)
Lemma firstAsnSignature_rev (older newer : list IAsnSignatureFormatter)
    (f : IAsnSignatureFormatter) (algorithm : Algorithm) (signature r : bytes) :
  Forall (declines algorithm signature) newer ->
  toAsnSignature f algorithm signature = Ok (Some r) ->
  X509CertificateGenerator.firstAsnSignature (rev (older ++ f :: newer))
    algorithm signature = Ok (Some r).
Proof.
  intros Hnewer Hf. rewrite rev_app_distr. simpl rev. rewrite <- app_assoc.
  rewrite firstAsnSignature_declined by (apply Forall_rev, Hnewer).
  simpl. rewrite Hf. reflexivity.
Qed.

Section AfterSigning.
(** A call that got as far as a raw signature. *)
Variables (params : X509CertificateCreateParams)
  (asnX509 : asn1X509.Certificate) (algId : AlgorithmIdentifier)
  (signature : bytes).
Hypothesis assembled : X509CertificateGenerator.assemble params = Ok asnX509.
Hypothesis identified :
  AlgorithmProvider_toAsnAlgorithm (X509CertificateGenerator.effectiveAlgorithm params)
  = Ok algId.
Hypothesis signed :
  subtle_sign (X509CertificateGenerator.effectiveAlgorithm params) (signingKey params)
    (AsnConvert_serialize_TBSCertificate
       (asn1X509.tbsCertificate (asn1X509.set_signatureAlgorithms algId asnX509)))
  = Ok signature.

Lemma signedStructure_after_signing (registered : list IAsnSignatureFormatter) :
  container_resolveAll_signatureFormatters = Ok registered ->
  X509CertificateGenerator.signedStructure params
  = (asnSignature <- X509CertificateGenerator.firstAsnSignature (rev registered)
                       (X509CertificateGenerator.effectiveAlgorithm params) signature ;;
     match asnSignature with
     | None => Throw X509CertificateGenerator.conversion_unsupported
     | Some a =>
         Ok (asn1X509.set_signatureValue a
               (asn1X509.set_signatureAlgorithms algId asnX509))
     end).
Proof.
  intros Hregistered. unfold X509CertificateGenerator.signedStructure.
  rewrite assembled. cbn [bind]. rewrite identified. cbn [bind].
  rewrite signed. cbn [bind]. rewrite Hregistered. reflexivity.
Qed.

(** C3. After signing, the formatters are tried from the most recently
    registered to the least recently registered and the first answer that
    is not not-applicable becomes the certificate's signature value; with
    two formatters F1 (registered first) and F2 (registered second) that
    both accept, it is the answer of F2. *)
Theorem most_recent_formatter_wins :
  (forall (older newer : list IAsnSignatureFormatter) (f : IAsnSignatureFormatter)
          (r : bytes),
     container_resolveAll_signatureFormatters = Ok (older ++ f :: newer) ->
     Forall (declines (X509CertificateGenerator.effectiveAlgorithm params) signature)
            newer ->
     toAsnSignature f (X509CertificateGenerator.effectiveAlgorithm params) signature
       = Ok (Some r) ->
     X509CertificateGenerator.signedStructure params
       = Ok (asn1X509.set_signatureValue r
               (asn1X509.set_signatureAlgorithms algId asnX509)) /\
     X509CertificateGenerator.create params
       = X509Certificate_new (AsnConvert_serialize_Certificate
           (asn1X509.set_signatureValue r
              (asn1X509.set_signatureAlgorithms algId asnX509)))) /\
  (forall (F1 F2 : IAsnSignatureFormatter) (r1 r2 : bytes),
     container_resolveAll_signatureFormatters = Ok [F1; F2] ->
     toAsnSignature F1 (X509CertificateGenerator.effectiveAlgorithm params) signature
       = Ok (Some r1) ->
     toAsnSignature F2 (X509CertificateGenerator.effectiveAlgorithm params) signature
       = Ok (Some r2) ->
     X509CertificateGenerator.signedStructure params
       = Ok (asn1X509.set_signatureValue r2
               (asn1X509.set_signatureAlgorithms algId asnX509)) /\
     X509CertificateGenerator.create params
       = X509Certificate_new (AsnConvert_serialize_Certificate
           (asn1X509.set_signatureValue r2
              (asn1X509.set_signatureAlgorithms algId asnX509)))).
Proof.
  assert (forall older newer f r,
     container_resolveAll_signatureFormatters = Ok (older ++ f :: newer) ->
     Forall (declines (X509CertificateGenerator.effectiveAlgorithm params) signature)
            newer ->
     toAsnSignature f (X509CertificateGenerator.effectiveAlgorithm params) signature
       = Ok (Some r) ->
     X509CertificateGenerator.signedStructure params
       = Ok (asn1X509.set_signatureValue r
               (asn1X509.set_signatureAlgorithms algId asnX509))) as Hgeneral.
  { intros older newer f r Hregistered Hnewer Hf.
    rewrite (signedStructure_after_signing _ Hregistered).
    rewrite (firstAsnSignature_rev older newer f _ _ r Hnewer Hf). reflexivity. }
  split.
  - intros older newer f r Hregistered Hnewer Hf.
    pose proof (Hgeneral older newer f r Hregistered Hnewer Hf) as Hstructure.
    split; [exact Hstructure|].
    unfold X509CertificateGenerator.create. rewrite Hstructure. reflexivity.
  - intros F1 F2 r1 r2 Hregistered _ H2.
    pose proof (Hgeneral [F1] [] F2 r2 Hregistered ltac:(constructor) H2) as Hstructure.
    split; [exact Hstructure|].
    unfold X509CertificateGenerator.create. rewrite Hstructure. reflexivity.
Qed.

(** C4. After signing, when every registered formatter answers
    not-applicable, [create] throws the error "Cannot convert ASN.1
    signature value to WebCrypto format": no certificate is made and no
    conversion is made up. *)
Theorem all_formatters_decline (registered : list IAsnSignatureFormatter) :
  container_resolveAll_signatureFormatters = Ok registered ->
  Forall (declines (X509CertificateGenerator.effectiveAlgorithm params) signature)
         registered ->
  X509CertificateGenerator.signedStructure params
    = Throw X509CertificateGenerator.conversion_unsupported /\
  X509CertificateGenerator.create params
    = Throw (Error "Cannot convert ASN.1 signature value to WebCrypto format") /\
  forall cert, X509CertificateGenerator.create params <> Ok cert.
Proof.
  intros Hregistered Hdecline.
  assert (X509CertificateGenerator.signedStructure params
          = Throw X509CertificateGenerator.conversion_unsupported) as Hstructure.
  { rewrite (signedStructure_after_signing _ Hregistered).
    rewrite firstAsnSignature_all_declined by (apply Forall_rev, Hdecline).
    reflexivity. }
  assert (X509CertificateGenerator.create params
          = Throw (Error "Cannot convert ASN.1 signature value to WebCrypto format"))
    as Hcreate.
  { unfold X509CertificateGenerator.create. rewrite Hstructure. reflexivity. }
  split; [exact Hstructure|]. split; [exact Hcreate|].
  intros cert. rewrite Hcreate. discriminate.
Qed.

End AfterSigning.

(** A structure [signedStructure] returns comes out of these steps. *)
Lemma signedStructure_inv (params : X509CertificateCreateParams)
    (signedX509 : asn1X509.Certificate) :
  X509CertificateGenerator.signedStructure params = Ok signedX509 ->
  exists (asnX509 : asn1X509.Certificate) (algId : AlgorithmIdentifier)
         (signature a : bytes) (registered : list IAsnSignatureFormatter),
    X509CertificateGenerator.assemble params = Ok asnX509 /\
    AlgorithmProvider_toAsnAlgorithm (X509CertificateGenerator.effectiveAlgorithm params)
      = Ok algId /\
    subtle_sign (X509CertificateGenerator.effectiveAlgorithm params) (signingKey params)
      (AsnConvert_serialize_TBSCertificate
         (asn1X509.tbsCertificate (asn1X509.set_signatureAlgorithms algId asnX509)))
      = Ok signature /\
    container_resolveAll_signatureFormatters = Ok registered /\
    X509CertificateGenerator.firstAsnSignature (rev registered)
      (X509CertificateGenerator.effectiveAlgorithm params) signature = Ok (Some a) /\
    signedX509 = asn1X509.set_signatureValue a
                   (asn1X509.set_signatureAlgorithms algId asnX509).
Proof.
  unfold X509CertificateGenerator.signedStructure.
  destruct (X509CertificateGenerator.assemble params) as [asnX509|] eqn:Hassemble;
    cbn [bind]; [|discriminate].
  destruct (AlgorithmProvider_toAsnAlgorithm _) as [algId|] eqn:Hid;
    cbn [bind]; [|discriminate].
  destruct (subtle_sign _ _ _) as [signature|] eqn:Hsign; cbn [bind]; [|discriminate].
  destruct container_resolveAll_signatureFormatters as [registered|] eqn:Hreg;
    cbn [bind]; [|discriminate].
  destruct (X509CertificateGenerator.firstAsnSignature _ _ _) as [[a|]|] eqn:Hfirst;
    cbn [bind]; try discriminate.
  intros [= <-]. exists asnX509, algId, signature, a, registered. auto 10.
Qed.

Lemma create_built_with_one_identifier (params : X509CertificateCreateParams)
    (cert : X509Certificate) :
  X509CertificateGenerator.create params = Ok cert ->
  built_with_one_identifier params cert.
Proof.
  unfold X509CertificateGenerator.create.
  destruct (X509CertificateGenerator.signedStructure params) as [signedX509|] eqn:Hs;
    cbn [bind]; [|discriminate].
  intros Hnew.
  destruct (signedStructure_inv _ _ Hs)
    as (asnX509 & algId & signature & a & registered & _ & Hid & _ & _ & _ & ->).
  exists (asn1X509.set_signatureValue a (asn1X509.set_signatureAlgorithms algId asnX509)),
         algId.
  repeat split; auto.
Qed.

(** C6. Whenever [create] or [createSelfSigned] returns a certificate, it is
    the serialisation of a structure whose [tbsCertificate.signature] and
    [signatureAlgorithm] both hold the one identifier the algorithm provider
    returned, so any encoding of the two fields gives the same bytes. *)
Theorem signature_algorithm_fields_agree :
  (forall (params : X509CertificateCreateParams) (cert : X509Certificate),
     X509CertificateGenerator.create params = Ok cert ->
     built_with_one_identifier params cert) /\
  (forall (params : X509CertificateCreateSelfSignedParams) (cert : X509Certificate),
     X509CertificateGenerator.createSelfSigned params = Ok cert ->
     built_with_one_identifier (selfSignedRequest params) cert).
Proof.
  split.
  - exact create_built_with_one_identifier.
  - intros params cert Hcreate.
    apply create_built_with_one_identifier.
    destruct params as [[] ? ?]. exact Hcreate.
Qed.

(** [create] does not depend on what signing and the algorithm table do at
    other algorithms than the effective one. *)
Lemma create_consults_effective_algorithm (params : X509CertificateCreateParams)
    (sign : Algorithm -> CryptoKey -> bytes -> result bytes)
    (toAsnAlgorithm : Algorithm -> result AlgorithmIdentifier) :
  (forall key data,
     sign (X509CertificateGenerator.effectiveAlgorithm params) key data
     = subtle_sign (X509CertificateGenerator.effectiveAlgorithm params) key data) ->
  toAsnAlgorithm (X509CertificateGenerator.effectiveAlgorithm params)
    = AlgorithmProvider_toAsnAlgorithm (X509CertificateGenerator.effectiveAlgorithm params) ->
  X509CertificateGenerator.create
    (env := withAlgorithmServices env sign toAsnAlgorithm) params
  = X509CertificateGenerator.create params.
Proof.
  intros Hsign Hid.
  unfold X509CertificateGenerator.create, X509CertificateGenerator.signedStructure.
  change (X509CertificateGenerator.assemble
            (env := withAlgorithmServices env sign toAsnAlgorithm) params)
    with (X509CertificateGenerator.assemble params).
  destruct (X509CertificateGenerator.assemble params) as [asnX509|e];
    cbn [bind]; [|reflexivity].
  cbn [AlgorithmProvider_toAsnAlgorithm subtle_sign withAlgorithmServices].
  rewrite Hid.
  destruct (AlgorithmProvider_toAsnAlgorithm _) as [algId|e]; cbn [bind]; [|reflexivity].
  rewrite Hsign. reflexivity.
Qed.

(** C7. The effective signing algorithm is the caller's descriptor merged
    with the algorithm of the signing key, the key taking precedence: a
    property of the key's algorithm has the key's value, and the caller's
    descriptor supplies the properties the key's algorithm lacks.  Signing
    and the identifier lookup are both done at this algorithm: [create] is
    unchanged when they behave differently elsewhere, and a returned
    certificate comes from their answers at it. *)
Theorem effective_algorithm_prefers_key (params : X509CertificateCreateParams) :
  (forall k : string,
     X509CertificateGenerator.effectiveAlgorithm params !! k
     = match algorithm (signingKey params) !! k with
       | Some v => Some v
       | None => signingAlgorithm params !! k
       end) /\
  (forall (sign : Algorithm -> CryptoKey -> bytes -> result bytes)
          (toAsnAlgorithm : Algorithm -> result AlgorithmIdentifier),
     (forall key data,
        sign (X509CertificateGenerator.effectiveAlgorithm params) key data
        = subtle_sign (X509CertificateGenerator.effectiveAlgorithm params) key data) ->
     toAsnAlgorithm (X509CertificateGenerator.effectiveAlgorithm params)
       = AlgorithmProvider_toAsnAlgorithm
           (X509CertificateGenerator.effectiveAlgorithm params) ->
     X509CertificateGenerator.create
       (env := withAlgorithmServices env sign toAsnAlgorithm) params
     = X509CertificateGenerator.create params) /\
  (forall signedX509 : asn1X509.Certificate,
     X509CertificateGenerator.signedStructure params = Ok signedX509 ->
     exists (asnX509 : asn1X509.Certificate) (algId : AlgorithmIdentifier)
            (signature : bytes),
       X509CertificateGenerator.assemble params = Ok asnX509 /\
       AlgorithmProvider_toAsnAlgorithm
         (X509CertificateGenerator.effectiveAlgorithm params) = Ok algId /\
       subtle_sign (X509CertificateGenerator.effectiveAlgorithm params)
         (signingKey params)
         (AsnConvert_serialize_TBSCertificate
            (asn1X509.tbsCertificate (asn1X509.set_signatureAlgorithms algId asnX509)))
         = Ok signature /\
       asn1X509.signatureAlgorithm signedX509 = Some algId).
Proof.
  split; [|split].
  - intros k. unfold X509CertificateGenerator.effectiveAlgorithm.
    destruct (algorithm (signingKey params) !! k) as [v|] eqn:Hk.
    + apply lookup_union_Some_l. exact Hk.
    + apply lookup_union_r. exact Hk.
  - apply create_consults_effective_algorithm.
  - intros signedX509 Hs.
    destruct (signedStructure_inv _ _ Hs)
      as (asnX509 & algId & signature & a & registered & Ha & Hid & Hsign & _ & _ & ->).
    exists asnX509, algId, signature. auto.
Qed.

End GeneratorProperties.

Lemma most_recent_formatter_wins_witness :
  exists (signature r1 r2 : bytes) (signedX509 : asn1X509.Certificate),
    toAsnSignature GeneratorSample.passThrough
      (X509CertificateGenerator.effectiveAlgorithm GeneratorSample.ecRequest) signature
      = Ok (Some r1) /\
    toAsnSignature GeneratorSample.ecFormatter
      (X509CertificateGenerator.effectiveAlgorithm GeneratorSample.ecRequest) signature
      = Ok (Some r2) /\
    r1 <> r2 /\
    @X509CertificateGenerator.signedStructure GeneratorSample.types TextSample.codecs
      (GeneratorSample.env [GeneratorSample.passThrough; GeneratorSample.ecFormatter])
      GeneratorSample.ecRequest = Ok signedX509 /\
    asn1X509.signatureValue signedX509 = r2.
Proof.
  edestruct (@most_recent_formatter_wins GeneratorSample.types TextSample.codecs
               (GeneratorSample.env [GeneratorSample.passThrough; GeneratorSample.ecFormatter])
               GeneratorSample.ecRequest) as [_ Htwo].
  - reflexivity.
  - reflexivity.
  - reflexivity.
  - edestruct (Htwo GeneratorSample.passThrough GeneratorSample.ecFormatter)
      as [Hstructure _].
    + reflexivity.
    + reflexivity.
    + reflexivity.
    + eexists _, _, _, _.
      split; [reflexivity|]. split; [reflexivity|].
      split; [|split; [exact Hstructure|reflexivity]].
      vm_compute. discriminate.
Defined.

Lemma all_formatters_decline_witness :
  @X509CertificateGenerator.create GeneratorSample.types TextSample.codecs
    (GeneratorSample.env [GeneratorSample.ecFormatter]) GeneratorSample.rsaRequest
  = Throw (Error "Cannot convert ASN.1 signature value to WebCrypto format").
Proof.
  edestruct (@all_formatters_decline GeneratorSample.types TextSample.codecs
               (GeneratorSample.env [GeneratorSample.ecFormatter])
               GeneratorSample.rsaRequest) as (_ & Hcreate & _).
  - reflexivity.
  - reflexivity.
  - reflexivity.
  - reflexivity.
  - repeat constructor.
  - exact Hcreate.
Defined.

Lemma signature_algorithm_fields_agree_witness :
  exists cert,
    @X509CertificateGenerator.createSelfSigned GeneratorSample.types TextSample.codecs
      (GeneratorSample.env [GeneratorSample.passThrough; GeneratorSample.ecFormatter])
      GeneratorSample.selfSigned = Ok cert /\
    @built_with_one_identifier GeneratorSample.types TextSample.codecs
      (GeneratorSample.env [GeneratorSample.passThrough; GeneratorSample.ecFormatter])
      (selfSignedRequest GeneratorSample.selfSigned) cert.
Proof.
  eexists. split.
  - reflexivity.
  - apply (proj2 (@signature_algorithm_fields_agree GeneratorSample.types
                    TextSample.codecs
                    (GeneratorSample.env
                       [GeneratorSample.passThrough; GeneratorSample.ecFormatter]))).
    reflexivity.
Defined.

(** C7, as first stated, fails: the caller asks for SHA-512, the RSA key was
    made for SHA-256, and the effective algorithm carries the key's hash. *)
Lemma caller_hash_is_overridden :
  signingAlgorithm GeneratorSample.rsaRequest !! "hash"%string
    = Some (JsString "SHA-512") /\
  X509CertificateGenerator.effectiveAlgorithm GeneratorSample.rsaRequest !! "hash"%string
    = Some (JsNamed "SHA-256") /\
  ~ (forall (k : string) (v : JsValue),
       signingAlgorithm GeneratorSample.rsaRequest !! k = Some v ->
       X509CertificateGenerator.effectiveAlgorithm GeneratorSample.rsaRequest !! k
       = Some v).
Proof.
  split; [reflexivity|]. split; [reflexivity|].
  intros Hkeeps.
  specialize (Hkeeps "hash"%string (JsString "SHA-512") eq_refl).
  vm_compute in Hkeeps. discriminate.
Qed.

(** A signer and an algorithm table that fail everywhere but at the
    effective algorithm of the RSA request. *)
Lemma effective_algorithm_prefers_key_witness :
  X509CertificateGenerator.effectiveAlgorithm GeneratorSample.rsaRequest !! "hash"%string
    = Some (JsNamed "SHA-256") /\
  X509CertificateGenerator.effectiveAlgorithm GeneratorSample.ecRequest !! "hash"%string
    = Some (JsString "SHA-256") /\
  @X509CertificateGenerator.create GeneratorSample.types TextSample.codecs
    (withAlgorithmServices
       (GeneratorSample.env [GeneratorSample.passThrough])
       (fun algorithm key data =>
          if name_is algorithm "RSASSA-PKCS1-v1_5"
          then GeneratorSample.sign algorithm key data
          else Throw (Error "unexpected algorithm"))
       (fun algorithm =>
          if name_is algorithm "RSASSA-PKCS1-v1_5"
          then GeneratorSample.toAsnAlgorithm algorithm
          else Throw (Error "unexpected algorithm")))
    GeneratorSample.rsaRequest
  = @X509CertificateGenerator.create GeneratorSample.types TextSample.codecs
      (GeneratorSample.env [GeneratorSample.passThrough]) GeneratorSample.rsaRequest.
Proof.
  split; [|split].
  - rewrite (proj1 (@effective_algorithm_prefers_key GeneratorSample.types
                      TextSample.codecs (GeneratorSample.env [])
                      GeneratorSample.rsaRequest)).
    reflexivity.
  - rewrite (proj1 (@effective_algorithm_prefers_key GeneratorSample.types
                      TextSample.codecs (GeneratorSample.env [])
                      GeneratorSample.ecRequest)).
    reflexivity.
  - apply (proj1 (proj2 (@effective_algorithm_prefers_key GeneratorSample.types
                           TextSample.codecs
                           (GeneratorSample.env [GeneratorSample.passThrough])
                           GeneratorSample.rsaRequest))).
    + intros key data. reflexivity.
    + reflexivity.
Defined.

(** * Further properties of the ECDSA formatter *)

(** ** Values of byte strings *)

Lemma be_value_acc (data : bytes) (acc : Z) :
  fold_left (fun a x => 256 * a + Z_of_byte x) data acc
  = acc * 256 ^ Z.of_nat (length data) + be_value data.
Proof.
  unfold be_value. revert acc.
  induction data as [|b rest IH]; intros acc; cbn [fold_left length].
  - simpl. lia.
  - rewrite IH, (IH (256 * 0 + Z_of_byte b)).
    rewrite Nat2Z.inj_succ, Z.pow_succ_r by lia. lia.
Qed.

Lemma be_value_cons (b : byte) (rest : bytes) :
  be_value (b :: rest) = Z_of_byte b * 256 ^ Z.of_nat (length rest) + be_value rest.
Proof.
  unfold be_value at 1. cbn [fold_left]. rewrite be_value_acc. lia.
Qed.

Lemma be_value_app (front back : bytes) :
  be_value (front ++ back)
  = be_value front * 256 ^ Z.of_nat (length back) + be_value back.
Proof.
  unfold be_value at 1. rewrite fold_left_app. fold (be_value front).
  apply be_value_acc.
Qed.

Lemma Z_of_byte_range (b : byte) : 0 <= Z_of_byte b < 256.
Proof.
  unfold Z_of_byte. pose proof (Byte.to_N_bounded b). lia.
Qed.

Lemma Z_of_byte_zero (b : byte) : Z_of_byte b = 0 -> b = x00.
Proof.
  intros Hb. unfold Z_of_byte in Hb.
  assert (Byte.to_N b = Byte.to_N x00) as Heq by (simpl; lia).
  pose proof (Byte.of_to_N b) as H1. rewrite Heq in H1. simpl in H1. congruence.
Qed.

Lemma be_value_range (data : bytes) :
  0 <= be_value data < 256 ^ Z.of_nat (length data).
Proof.
  induction data as [|b rest IH].
  - unfold be_value. simpl. lia.
  - rewrite be_value_cons. cbn [length].
    rewrite Nat2Z.inj_succ, Z.pow_succ_r by lia.
    pose proof (Z_of_byte_range b). nia.
Qed.

Lemma be_value_replicate_zero (k : nat) (data : bytes) :
  be_value (replicate k x00 ++ data) = be_value data.
Proof.
  induction k as [|k IH]; [reflexivity|].
  cbn [replicate app]. rewrite be_value_cons, IH. reflexivity.
Qed.

Lemma be_value_removePadding (data : bytes) :
  be_value (AsnEcSignatureFormatter.removePadding data) = be_value data.
Proof.
  rewrite (removePadding_zeros data) at 2.
  symmetry. apply be_value_replicate_zero.
Qed.

Lemma removePadding_head (data : bytes) :
  head (AsnEcSignatureFormatter.removePadding data) <> Some x00.
Proof.
  induction data as [|b rest IH]; simpl; [discriminate|].
  destruct (byte_is_zero b) eqn:Hb; [exact IH|].
  simpl. intros [= ->]. discriminate.
Qed.

(** A byte string that does not start with a zero byte is as short as its
    value allows. *)
Lemma be_value_minimal (data : bytes) :
  head data <> Some x00 -> data <> [] ->
  256 ^ (Z.of_nat (length data) - 1) <= be_value data.
Proof.
  destruct data as [|b rest]; [congruence|]. intros Hhead _.
  rewrite be_value_cons. cbn [length].
  replace (Z.of_nat (S (length rest)) - 1) with (Z.of_nat (length rest)) by lia.
  assert (Z_of_byte b <> 0) as Hb.
  { intros Hz. apply Hhead. simpl. f_equal. apply Z_of_byte_zero, Hz. }
  pose proof (Z_of_byte_range b). pose proof (be_value_range rest).
  assert (0 < 256 ^ Z.of_nat (length rest)) by (apply Z.pow_pos_nonneg; lia).
  nia.
Qed.

(** X1. [removePadding] drops leading zero bytes and nothing else: the input
    is the output behind some zero bytes, the output does not start with a
    zero byte, it denotes the same number, and it is empty exactly when that
    number is 0. *)
Theorem removePadding_minimal (data : bytes) :
  (exists k : nat,
     data = replicate k x00 ++ AsnEcSignatureFormatter.removePadding data) /\
  head (AsnEcSignatureFormatter.removePadding data) <> Some x00 /\
  be_value (AsnEcSignatureFormatter.removePadding data) = be_value data /\
  (AsnEcSignatureFormatter.removePadding data = [] <-> be_value data = 0).
Proof.
  split; [eexists; apply removePadding_zeros|].
  split; [apply removePadding_head|].
  split; [apply be_value_removePadding|].
  rewrite <- be_value_removePadding. split.
  - intros ->. reflexivity.
  - intros Hzero.
    destruct (AsnEcSignatureFormatter.removePadding data) as [|b rest] eqn:Hstrip;
      [reflexivity|].
    pose proof (removePadding_head data) as Hhead. rewrite Hstrip in Hhead.
    pose proof (be_value_minimal (b :: rest) Hhead ltac:(discriminate)) as Hmin.
    assert (0 < 256 ^ (Z.of_nat (length (b :: rest)) - 1))
      by (apply Z.pow_pos_nonneg; cbn [length]; lia).
    lia.
Qed.

Lemma addPadding_inv (pointSize : Z) (data out : bytes) :
  AsnEcSignatureFormatter.addPadding pointSize data = Ok out ->
  Z.of_nat (length data) <= pointSize /\
  out = replicate (Z.to_nat pointSize - length data) x00 ++ data.
Proof.
  intros Hout.
  destruct (Z.le_gt_cases (Z.of_nat (length data)) pointSize) as [Hle|Hgt].
  - split; [exact Hle|]. rewrite addPadding_fits in Hout by exact Hle. congruence.
  - destruct (addPadding_overflow _ _ Hgt) as [msg Hthrow]. congruence.
Qed.

(** X2. [addPadding] succeeds exactly when the data has at most [pointSize]
    bytes; the result then has [pointSize] bytes, the data at its end behind
    zero bytes, and the same value.  Longer data, and a negative size, give
    a RangeError. *)
Theorem addPadding_exact (pointSize : Z) (data : bytes) :
  (Z.of_nat (length data) <= pointSize ->
   exists out : bytes,
     AsnEcSignatureFormatter.addPadding pointSize data = Ok out /\
     out = replicate (Z.to_nat pointSize - length data) x00 ++ data /\
     Z.of_nat (length out) = pointSize /\
     be_value out = be_value data) /\
  (pointSize < Z.of_nat (length data) ->
   exists msg, AsnEcSignatureFormatter.addPadding pointSize data
               = Throw (RangeError msg)) /\
  (forall out : bytes,
     AsnEcSignatureFormatter.addPadding pointSize data = Ok out ->
     Z.of_nat (length data) <= pointSize).
Proof.
  split; [|split].
  - intros Hfit. eexists. split; [apply addPadding_fits, Hfit|].
    split; [reflexivity|]. split.
    + rewrite length_app, length_replicate. lia.
    + apply be_value_replicate_zero.
  - apply addPadding_overflow.
  - intros out Hout. apply (addPadding_inv _ _ _ Hout).
Qed.

Lemma addPadding_exact_witness :
  AsnEcSignatureFormatter.addPadding 4 [x2a; x07] = Ok [x00; x00; x2a; x07] /\
  exists msg, AsnEcSignatureFormatter.addPadding 1 [x2a; x07] = Throw (RangeError msg).
Proof.
  destruct (addPadding_exact 4 [x2a; x07]) as [Hfit _].
  destruct (addPadding_exact 1 [x2a; x07]) as (_ & Hbig & _).
  split.
  - destruct (Hfit ltac:(simpl; lia)) as (out & Hout & -> & _). exact Hout.
  - apply Hbig. simpl. lia.
Defined.

Lemma pointSizeOf_nonzero (namedCurveSize : gmap string Z) (algorithm : Algorithm) :
  AsnEcSignatureFormatter.pointSizeOf namedCurveSize algorithm <> 0.
Proof.
  unfold AsnEcSignatureFormatter.pointSizeOf.
  destruct (AsnEcSignatureFormatter.namedCurveSize_get _ _) as [n|]; simpl.
  - destruct (Z.eqb_spec n 0); [discriminate|assumption].
  - discriminate.
Qed.

(** X3. The point size is never 0.  A table entry 0 counts as no entry, and
    so does an algorithm whose [namedCurve] is missing or is not a string:
    each gives the default 32. *)
Theorem pointSizeOf_never_zero (namedCurveSize : gmap string Z)
    (algorithm : Algorithm) :
  AsnEcSignatureFormatter.pointSizeOf namedCurveSize algorithm <> 0 /\
  (forall curve : string,
     algorithm !! "namedCurve"%string = Some (JsString curve) ->
     namedCurveSize !! curve = Some 0 ->
     AsnEcSignatureFormatter.pointSizeOf namedCurveSize algorithm = 32) /\
  (algorithm !! "namedCurve"%string = None ->
   AsnEcSignatureFormatter.pointSizeOf namedCurveSize algorithm = 32) /\
  (forall v : JsValue,
     algorithm !! "namedCurve"%string = Some v ->
     (forall curve, v <> JsString curve) ->
     AsnEcSignatureFormatter.pointSizeOf namedCurveSize algorithm = 32).
Proof.
  split; [apply pointSizeOf_nonzero|].
  unfold AsnEcSignatureFormatter.pointSizeOf. split; [|split].
  - intros curve -> Hzero. simpl. rewrite Hzero. reflexivity.
  - intros ->. reflexivity.
  - intros v -> Hv. destruct v as [curve| |]; try reflexivity.
    exfalso. apply (Hv curve). reflexivity.
Qed.

(** X4. The formatter answers [null] exactly for the algorithms whose
    [name] is not the string ECDSA, in both directions; in that case
    [toWebSignature] does not parse its input. *)
Theorem formatter_declines_iff (namedCurveSize : gmap string Z)
    (codec : AsnConvert) (algorithm : Algorithm) (signature : bytes) :
  (name_is algorithm "ECDSA" = true
   <-> algorithm !! "name"%string = Some (JsString "ECDSA")) /\
  (AsnEcSignatureFormatter.toAsnSignature namedCurveSize algorithm signature = Ok None
   <-> name_is algorithm "ECDSA" = false) /\
  (AsnEcSignatureFormatter.toWebSignature namedCurveSize algorithm signature = Ok None
   <-> name_is algorithm "ECDSA" = false).
Proof.
  split; [|split].
  - unfold name_is.
    destruct (algorithm !! "name"%string) as [[n| |]|];
      try (split; discriminate).
    rewrite String.eqb_eq. split; [intros ->; reflexivity|intros [= ->]; reflexivity].
  - unfold AsnEcSignatureFormatter.toAsnSignature.
    destruct (name_is algorithm "ECDSA"); split; congruence.
  - unfold AsnEcSignatureFormatter.toWebSignature.
    destruct (name_is algorithm "ECDSA"); [|split; congruence].
    split; [|discriminate].
    destruct (parse signature) as [v|]; cbn [bind]; [|discriminate].
    destruct (AsnEcSignatureFormatter.addPadding _ _) as [r|]; cbn [bind];
      [|discriminate].
    destruct (AsnEcSignatureFormatter.addPadding _ _) as [s|]; cbn [bind];
      discriminate.
Qed.

(** What [toWebSignature] answers for an ECDSA algorithm once the input is
    parsed. *)
Lemma toWebSignature_parsed (namedCurveSize : gmap string Z) (codec : AsnConvert)
    (algorithm : Algorithm) (asn : bytes) (v : ECDSASigValue.t) :
  name_is algorithm "ECDSA" = true ->
  parse asn = Ok v ->
  AsnEcSignatureFormatter.toWebSignature namedCurveSize algorithm asn
  = (r <- AsnEcSignatureFormatter.addPadding
            (AsnEcSignatureFormatter.pointSizeOf namedCurveSize algorithm)
            (AsnEcSignatureFormatter.removePadding (ECDSASigValue.r v)) ;;
     s <- AsnEcSignatureFormatter.addPadding
            (AsnEcSignatureFormatter.pointSizeOf namedCurveSize algorithm)
            (AsnEcSignatureFormatter.removePadding (ECDSASigValue.s v)) ;;
     Ok (Some (r ++ s))).
Proof.
  intros Hname Hparse. unfold AsnEcSignatureFormatter.toWebSignature.
  rewrite Hname, Hparse. reflexivity.
Qed.

(** The successful outcomes of [toWebSignature]. *)
Lemma toWebSignature_inv (namedCurveSize : gmap string Z) (codec : AsnConvert)
    (algorithm : Algorithm) (asn out : bytes) (v : ECDSASigValue.t) :
  name_is algorithm "ECDSA" = true ->
  parse asn = Ok v ->
  AsnEcSignatureFormatter.toWebSignature namedCurveSize algorithm asn = Ok (Some out) ->
  exists r s : bytes,
    out = r ++ s /\
    Z.of_nat (length r) = AsnEcSignatureFormatter.pointSizeOf namedCurveSize algorithm /\
    Z.of_nat (length s) = AsnEcSignatureFormatter.pointSizeOf namedCurveSize algorithm /\
    AsnEcSignatureFormatter.removePadding r
      = AsnEcSignatureFormatter.removePadding (ECDSASigValue.r v) /\
    AsnEcSignatureFormatter.removePadding s
      = AsnEcSignatureFormatter.removePadding (ECDSASigValue.s v).
Proof.
  intros Hname Hparse. rewrite (toWebSignature_parsed _ _ _ _ _ Hname Hparse).
  set (P := AsnEcSignatureFormatter.pointSizeOf namedCurveSize algorithm).
  destruct (AsnEcSignatureFormatter.addPadding P
              (AsnEcSignatureFormatter.removePadding (ECDSASigValue.r v)))
    as [r|] eqn:Hr; cbn [bind]; [|discriminate].
  destruct (AsnEcSignatureFormatter.addPadding P
              (AsnEcSignatureFormatter.removePadding (ECDSASigValue.s v)))
    as [s|] eqn:Hs; cbn [bind]; [|discriminate].
  intros [= <-]. exists r, s. split; [reflexivity|].
  destruct (addPadding_inv _ _ _ Hr) as [Hr_le ->].
  destruct (addPadding_inv _ _ _ Hs) as [Hs_le ->].
  rewrite !length_app, !length_replicate.
  split; [lia|]. split; [lia|].
  rewrite !removePadding_replicate, !removePadding_idem.
  split; reflexivity.
Qed.

Lemma be_value_same_magnitude (a b : bytes) :
  AsnEcSignatureFormatter.removePadding a = AsnEcSignatureFormatter.removePadding b ->
  be_value a = be_value b.
Proof.
  intros Heq. rewrite <- (be_value_removePadding a), Heq.
  apply be_value_removePadding.
Qed.

(** X5. For an ECDSA algorithm and a parsed signature, [toWebSignature]
    succeeds exactly when both integers fit the point size P once their
    leading zero bytes are gone; its result then has 2P bytes, P is
    positive, and the two halves denote the numbers r and s. *)
Theorem toWebSignature_fixed_width (namedCurveSize : gmap string Z)
    (codec : AsnConvert) (algorithm : Algorithm) (asn : bytes)
    (v : ECDSASigValue.t) :
  name_is algorithm "ECDSA" = true ->
  parse asn = Ok v ->
  (Z.of_nat (length (AsnEcSignatureFormatter.removePadding (ECDSASigValue.r v)))
     <= AsnEcSignatureFormatter.pointSizeOf namedCurveSize algorithm ->
   Z.of_nat (length (AsnEcSignatureFormatter.removePadding (ECDSASigValue.s v)))
     <= AsnEcSignatureFormatter.pointSizeOf namedCurveSize algorithm ->
   exists out,
     AsnEcSignatureFormatter.toWebSignature namedCurveSize algorithm asn
     = Ok (Some out)) /\
  (forall out : bytes,
     AsnEcSignatureFormatter.toWebSignature namedCurveSize algorithm asn
       = Ok (Some out) ->
     0 < AsnEcSignatureFormatter.pointSizeOf namedCurveSize algorithm /\
     Z.of_nat (length out)
       = 2 * AsnEcSignatureFormatter.pointSizeOf namedCurveSize algorithm /\
     Z.of_nat (length (AsnEcSignatureFormatter.removePadding (ECDSASigValue.r v)))
       <= AsnEcSignatureFormatter.pointSizeOf namedCurveSize algorithm /\
     Z.of_nat (length (AsnEcSignatureFormatter.removePadding (ECDSASigValue.s v)))
       <= AsnEcSignatureFormatter.pointSizeOf namedCurveSize algorithm /\
     be_value (take (Z.to_nat (AsnEcSignatureFormatter.pointSizeOf namedCurveSize algorithm))
                 out) = be_value (ECDSASigValue.r v) /\
     be_value (drop (Z.to_nat (AsnEcSignatureFormatter.pointSizeOf namedCurveSize algorithm))
                 out) = be_value (ECDSASigValue.s v)).
Proof.
  intros Hname Hparse.
  set (P := AsnEcSignatureFormatter.pointSizeOf namedCurveSize algorithm).
  split.
  - intros Hr Hs. rewrite (toWebSignature_parsed _ _ _ _ _ Hname Hparse). fold P.
    rewrite !addPadding_fits by assumption. cbn [bind]. eauto.
  - intros out Hout.
    destruct (toWebSignature_inv _ _ _ _ _ _ Hname Hparse Hout)
      as (r & s & -> & Hr_len & Hs_len & Hr & Hs). fold P in Hr_len, Hs_len.
    pose proof (pointSizeOf_nonzero namedCurveSize algorithm) as HP. fold P in HP.
    split; [lia|]. split; [rewrite length_app; lia|].
    pose proof (removePadding_length r) as Hlr. rewrite Hr in Hlr.
    pose proof (removePadding_length s) as Hls. rewrite Hs in Hls.
    split; [lia|]. split; [lia|].
    replace (Z.to_nat P) with (length r) by lia.
    rewrite take_app_length, drop_app_length.
    split; apply be_value_same_magnitude; assumption.
Qed.

Lemma toWebSignature_fixed_width_witness :
  exists out,
    @AsnEcSignatureFormatter.toWebSignature Sample.namedCurveSize Der.codec
      (Sample.ecdsa "P-256")
      (Der.serialize (ECDSASigValue.mk [x00; x2a] [x07])) = Ok (Some out) /\
    Z.of_nat (length out) = 64 /\
    be_value (take 32 out) = 42 /\
    be_value (drop 32 out) = 7.
Proof.
  destruct (toWebSignature_fixed_width Sample.namedCurveSize Der.codec
              (Sample.ecdsa "P-256")
              (Der.serialize (ECDSASigValue.mk [x00; x2a] [x07]))
              (ECDSASigValue.mk [x00; x2a] [x07]) eq_refl eq_refl)
    as [Hsome Hall].
  destruct Hsome as [out Hout]; [vm_compute; discriminate..|].
  exists out. split; [exact Hout|].
  destruct (Hall out Hout) as (_ & Hlen & _ & _ & Hr & Hs).
  split; [exact Hlen|]. split; [exact Hr|exact Hs].
Defined.

(** X6. Converting the result of [toWebSignature] back with
    [toAsnSignature] gives the serialisation of the parsed integers without
    their leading zero bytes. *)
Theorem toAsnSignature_after_toWebSignature (namedCurveSize : gmap string Z)
    (codec : AsnConvert) (algorithm : Algorithm) (asn raw : bytes)
    (v : ECDSASigValue.t) :
  name_is algorithm "ECDSA" = true ->
  parse asn = Ok v ->
  AsnEcSignatureFormatter.toWebSignature namedCurveSize algorithm asn = Ok (Some raw) ->
  AsnEcSignatureFormatter.toAsnSignature namedCurveSize algorithm raw
  = Ok (Some (serialize (ECDSASigValue.mk
                (AsnEcSignatureFormatter.removePadding (ECDSASigValue.r v))
                (AsnEcSignatureFormatter.removePadding (ECDSASigValue.s v))))).
Proof.
  intros Hname Hparse Hraw.
  destruct (toWebSignature_inv _ _ _ _ _ _ Hname Hparse Hraw)
    as (r & s & -> & Hr_len & Hs_len & Hr & Hs).
  rewrite toAsnSignature_ecdsa by exact Hname.
  destruct (slice_halves r s
              (AsnEcSignatureFormatter.pointSizeOf namedCurveSize algorithm))
    as [-> ->]; [lia..|].
  rewrite Hr, Hs. reflexivity.
Qed.

Lemma toAsnSignature_after_toWebSignature_witness :
  exists raw,
    @AsnEcSignatureFormatter.toWebSignature Sample.namedCurveSize Der.codec
      (Sample.ecdsa "P-256")
      (Der.serialize (ECDSASigValue.mk [x00; x2a] [x07])) = Ok (Some raw) /\
    @AsnEcSignatureFormatter.toAsnSignature Sample.namedCurveSize Der.codec
      (Sample.ecdsa "P-256") raw
    = Ok (Some (Der.serialize (ECDSASigValue.mk [x2a] [x07]))).
Proof.
  eexists. split.
  - reflexivity.
  - apply (toAsnSignature_after_toWebSignature Sample.namedCurveSize Der.codec
             (Sample.ecdsa "P-256")
             (Der.serialize (ECDSASigValue.mk [x00; x2a] [x07])) _
             (ECDSASigValue.mk [x00; x2a] [x07])); reflexivity.
Defined.

(** X7. For a registered curve of positive point size P and coordinates
    0 <= R, S < 2^(8P), [toAsnSignature] serialises two byte strings that
    denote R and S and are of minimal length: neither starts with a zero
    byte, so a coordinate whose first bit is set is written without a sign
    byte in front, and the coordinate 0 is written as the empty string. *)
Theorem toAsnSignature_minimal_integers (namedCurveSize : gmap string Z)
    (codec : AsnConvert) (algorithm : Algorithm) (curve : string) (P R S : Z) :
  name_is algorithm "ECDSA" = true ->
  algorithm !! "namedCurve"%string = Some (JsString curve) ->
  namedCurveSize !! curve = Some P ->
  0 < P ->
  0 <= R < 2 ^ (8 * P) ->
  0 <= S < 2 ^ (8 * P) ->
  exists r s : bytes,
    AsnEcSignatureFormatter.toAsnSignature namedCurveSize algorithm (rawSignature R S P)
      = Ok (Some (serialize (ECDSASigValue.mk r s))) /\
    be_value r = R /\ be_value s = S /\
    head r <> Some x00 /\ head s <> Some x00 /\
    (r = [] <-> R = 0) /\ (s = [] <-> S = 0) /\
    (R <> 0 -> 256 ^ (Z.of_nat (length r) - 1) <= R) /\
    (S <> 0 -> 256 ^ (Z.of_nat (length s) - 1) <= S).
Proof.
  intros Hname Hcurve Htable HP HR HS.
  pose proof (pointSizeOf_registered _ _ _ _ Hcurve Htable ltac:(lia)) as Hsize.
  assert (256 ^ Z.of_nat (Z.to_nat P) = 2 ^ (8 * P)) as Hpow.
  { rewrite Z2Nat.id by lia. change 256 with (2 ^ 8). rewrite <- Z.pow_mul_r by lia.
    reflexivity. }
  assert (forall V, 0 <= V < 2 ^ (8 * P) ->
            be_value (AsnEcSignatureFormatter.removePadding (be_bytes (Z.to_nat P) V)) = V)
    as Hvalue.
  { intros V HV. rewrite be_value_removePadding. apply be_value_be_bytes. lia. }
  assert (forall data : bytes,
            (AsnEcSignatureFormatter.removePadding data = [] <-> be_value data = 0) /\
            (be_value data <> 0 ->
             256 ^ (Z.of_nat (length (AsnEcSignatureFormatter.removePadding data)) - 1)
             <= be_value data)) as Hmin.
  { intros data. rewrite <- (be_value_removePadding data).
    pose proof (removePadding_head data) as Hhead.
    destruct (AsnEcSignatureFormatter.removePadding data) as [|b rest] eqn:Hstrip.
    - split; [split; reflexivity|]. intros Hnz. exfalso. apply Hnz. reflexivity.
    - pose proof (be_value_minimal (b :: rest) Hhead ltac:(discriminate)) as Hge.
      assert (0 < 256 ^ (Z.of_nat (length (b :: rest)) - 1))
        by (apply Z.pow_pos_nonneg; cbn [length]; lia).
      split; [split; [discriminate|lia]|]. intros _. exact Hge. }
  unfold rawSignature. rewrite toAsnSignature_ecdsa by exact Hname. rewrite Hsize.
  destruct (slice_halves (be_bytes (Z.to_nat P) R) (be_bytes (Z.to_nat P) S) P)
    as [-> ->]; rewrite ?length_be_bytes; try lia.
  eexists _, _. split; [reflexivity|].
  pose proof (Hmin (be_bytes (Z.to_nat P) R)) as [HR0 HRmin].
  pose proof (Hmin (be_bytes (Z.to_nat P) S)) as [HS0 HSmin].
  rewrite be_value_be_bytes in HR0, HRmin, HS0, HSmin by lia.
  repeat split; try apply removePadding_head; try apply Hvalue;
    try apply HR0; try apply HS0; auto.
Qed.

Lemma toAsnSignature_minimal_integers_witness :
  exists r s : bytes,
    @AsnEcSignatureFormatter.toAsnSignature Sample.namedCurveSize Der.codec
      (Sample.ecdsa "P-256") (rawSignature Sample.R0 Sample.S0 32)
      = Ok (Some (Der.serialize (ECDSASigValue.mk r s))) /\
    be_value r = Sample.R0 /\ be_value s = Sample.S0 /\
    (r = [] <-> Sample.R0 = 0).
Proof.
  destruct (toAsnSignature_minimal_integers Sample.namedCurveSize Der.codec
              (Sample.ecdsa "P-256") "P-256" 32 Sample.R0 Sample.S0)
    as (r & s & Hasn & Hr & Hs & _ & _ & Hr0 & _).
  - reflexivity.
  - reflexivity.
  - reflexivity.
  - lia.
  - unfold Sample.R0. lia.
  - unfold Sample.S0. lia.
  - exists r, s. auto.
Defined.

(** X8. With a codec that keeps magnitudes, converting any byte sequence to
    the ASN.1 form and back succeeds whatever its length and yields 2P
    bytes: the first P bytes of the input and the next P bytes, as far as
    they exist, each as a number on P bytes.  An input of another length
    than 2P therefore does not come back as it was. *)
Theorem roundtrip_any_length (namedCurveSize : gmap string Z)
    (codec : AsnConvert) (algorithm : Algorithm) (signature : bytes) :
  name_is algorithm "ECDSA" = true ->
  0 < AsnEcSignatureFormatter.pointSizeOf namedCurveSize algorithm ->
  preserves_magnitudes codec (AsnEcSignatureFormatter.pointSizeOf namedCurveSize algorithm) ->
  exists asn out : bytes,
    AsnEcSignatureFormatter.toAsnSignature namedCurveSize algorithm signature
      = Ok (Some asn) /\
    AsnEcSignatureFormatter.toWebSignature namedCurveSize algorithm asn
      = Ok (Some out) /\
    Z.of_nat (length out)
      = 2 * AsnEcSignatureFormatter.pointSizeOf namedCurveSize algorithm /\
    be_value (take (Z.to_nat (AsnEcSignatureFormatter.pointSizeOf namedCurveSize algorithm))
                out)
      = be_value (take (Z.to_nat (AsnEcSignatureFormatter.pointSizeOf namedCurveSize algorithm))
                    signature) /\
    be_value (drop (Z.to_nat (AsnEcSignatureFormatter.pointSizeOf namedCurveSize algorithm))
                out)
      = be_value (take (Z.to_nat (AsnEcSignatureFormatter.pointSizeOf namedCurveSize algorithm))
                    (drop (Z.to_nat (AsnEcSignatureFormatter.pointSizeOf namedCurveSize algorithm))
                       signature)) /\
    (Z.of_nat (length signature)
       <> 2 * AsnEcSignatureFormatter.pointSizeOf namedCurveSize algorithm ->
     out <> signature).
Proof.
  intros Hname HP Hcodec.
  set (P := AsnEcSignatureFormatter.pointSizeOf namedCurveSize algorithm) in *.
  rewrite toAsnSignature_ecdsa by exact Hname. fold P.
  rewrite slice_head, slice_second by lia.
  set (a := take (Z.to_nat P) signature).
  set (b := take (Z.to_nat P) (drop (Z.to_nat P) signature)).
  assert (Z.of_nat (length a) <= P) as Ha by (unfold a; rewrite length_take; lia).
  assert (Z.of_nat (length b) <= P) as Hb by (unfold b; rewrite length_take; lia).
  pose proof (removePadding_length a) as Hla.
  pose proof (removePadding_length b) as Hlb.
  destruct (Hcodec (ECDSASigValue.mk (AsnEcSignatureFormatter.removePadding a)
                                     (AsnEcSignatureFormatter.removePadding b)))
    as (v' & Hparse & Hr' & Hs'); cbn [ECDSASigValue.r ECDSASigValue.s]; [lia..|].
  cbn [ECDSASigValue.r ECDSASigValue.s] in Hr', Hs'.
  rewrite removePadding_idem in Hr', Hs'.
  eexists _, _. split; [reflexivity|].
  rewrite (toWebSignature_parsed _ _ _ _ _ Hname Hparse). fold P.
  rewrite Hr', Hs', !addPadding_fits by lia. cbn [bind].
  split; [reflexivity|].
  assert (length (replicate (Z.to_nat P - length (AsnEcSignatureFormatter.removePadding a)) x00
                  ++ AsnEcSignatureFormatter.removePadding a) = Z.to_nat P) as Hlen_r
    by (rewrite length_app, length_replicate; lia).
  assert (length (replicate (Z.to_nat P - length (AsnEcSignatureFormatter.removePadding b)) x00
                  ++ AsnEcSignatureFormatter.removePadding b) = Z.to_nat P) as Hlen_s
    by (rewrite length_app, length_replicate; lia).
  assert (forall x y : bytes, length x = Z.to_nat P ->
            take (Z.to_nat P) (x ++ y) = x /\ drop (Z.to_nat P) (x ++ y) = y) as Hsplit.
  { intros x y <-. split; [apply take_app_length|apply drop_app_length]. }
  destruct (Hsplit _ (replicate (Z.to_nat P - length (AsnEcSignatureFormatter.removePadding b)) x00
                      ++ AsnEcSignatureFormatter.removePadding b) Hlen_r) as [-> ->].
  split; [rewrite length_app; lia|].
  rewrite !be_value_replicate_zero, !be_value_removePadding.
  split; [reflexivity|]. split; [reflexivity|].
  intros Hlen Heq. apply Hlen. rewrite <- Heq, length_app. lia.
Qed.

Lemma roundtrip_any_length_witness :
  exists asn out : bytes,
    @AsnEcSignatureFormatter.toAsnSignature Sample.namedCurveSize Der.codec
      (Sample.ecdsa "P-256") [x2a; x07] = Ok (Some asn) /\
    @AsnEcSignatureFormatter.toWebSignature Sample.namedCurveSize Der.codec
      (Sample.ecdsa "P-256") asn = Ok (Some out) /\
    Z.of_nat (length out) = 64 /\
    out <> [x2a; x07].
Proof.
  destruct (roundtrip_any_length Sample.namedCurveSize Der.codec
              (Sample.ecdsa "P-256") [x2a; x07])
    as (asn & out & Hasn & Hout & Hlen & _ & _ & Hne).
  - reflexivity.
  - vm_compute. reflexivity.
  - apply der_preserves_magnitudes. vm_compute. reflexivity.
  - exists asn, out. split; [exact Hasn|]. split; [exact Hout|].
    split; [exact Hlen|]. apply Hne. vm_compute. discriminate.
Defined.

(** X9. A negative point size in the table is used as it is: for such a
    curve [toWebSignature] throws a RangeError on every parsed signature,
    while [toAsnSignature] still answers, taking its slices with indices
    counted from the end. *)
Theorem negative_point_size (namedCurveSize : gmap string Z) (codec : AsnConvert)
    (algorithm : Algorithm) (curve : string) (P : Z) :
  name_is algorithm "ECDSA" = true ->
  algorithm !! "namedCurve"%string = Some (JsString curve) ->
  namedCurveSize !! curve = Some P ->
  P < 0 ->
  (forall (asn : bytes) (v : ECDSASigValue.t),
     parse asn = Ok v ->
     exists msg,
       AsnEcSignatureFormatter.toWebSignature namedCurveSize algorithm asn
       = Throw (RangeError msg)) /\
  (forall signature : bytes,
     AsnEcSignatureFormatter.toAsnSignature namedCurveSize algorithm signature
     = Ok (Some (serialize (ECDSASigValue.mk
         (AsnEcSignatureFormatter.removePadding
            (take (Z.to_nat (Z.of_nat (length signature) + P)) signature))
         [])))).
Proof.
  intros Hname Hcurve Htable HP.
  pose proof (pointSizeOf_registered _ _ _ _ Hcurve Htable ltac:(lia)) as Hsize.
  split.
  - intros asn v Hparse.
    rewrite (toWebSignature_parsed _ _ _ _ _ Hname Hparse), Hsize.
    unfold AsnEcSignatureFormatter.addPadding at 1, newUint8Array.
    destruct (Z.ltb_spec P 0) as [_|?]; [|lia]. cbn [bind]. eauto.
  - intros signature. rewrite toAsnSignature_ecdsa by exact Hname. rewrite Hsize.
    unfold slice, relativeIndex.
    destruct (Z.ltb_spec 0 0) as [?|_]; [lia|].
    destruct (Z.ltb_spec P 0) as [_|?]; [|lia].
    destruct (Z.ltb_spec (P + P) 0) as [_|?]; [|lia].
    rewrite (Z.min_l 0) by lia. change (Z.to_nat 0) with O. rewrite drop_0, Z.sub_0_r.
    replace (Z.to_nat (Z.max (Z.of_nat (length signature) + (P + P)) 0
                       - Z.max (Z.of_nat (length signature) + P) 0)) with O by lia.
    rewrite take_0.
    replace (Z.to_nat (Z.max (Z.of_nat (length signature) + P) 0))
      with (Z.to_nat (Z.of_nat (length signature) + P)) by lia.
    reflexivity.
Qed.

Lemma negative_point_size_witness :
  (exists msg,
     @AsnEcSignatureFormatter.toWebSignature {[ "odd"%string := -1 ]} Der.codec
       (Sample.ecdsa "odd") (Der.serialize (ECDSASigValue.mk [x2a] [x07]))
     = Throw (RangeError msg)) /\
  @AsnEcSignatureFormatter.toAsnSignature {[ "odd"%string := -1 ]} Der.codec
    (Sample.ecdsa "odd") [x2a; x07; x09]
  = Ok (Some (Der.serialize (ECDSASigValue.mk [x2a; x07] []))).
Proof.
  destruct (negative_point_size {[ "odd"%string := -1 ]} Der.codec
              (Sample.ecdsa "odd") "odd" (-1))
    as [Hweb Hasn]; [reflexivity|reflexivity|reflexivity|lia|].
  split.
  - apply (Hweb _ (ECDSASigValue.mk [x2a] [x07])). reflexivity.
  - apply (Hasn [x2a; x07; x09]).
Defined.

(** * Further properties of the generator *)

Section MoreGeneratorProperties.
Context {types : Asn1X509Types} {codecs : TextCodecs} {env : Collaborators}.

Lemma mapResult_Ok {A B : Type} (f : A -> result B) (xs : list A) (ys : list B) :
  mapResult f xs = Ok ys -> Forall2 (fun x y => f x = Ok y) xs ys.
Proof.
  revert ys; induction xs as [|x rest IH]; intros ys; cbn [mapResult].
  - intros [= <-]. constructor.
  - destruct (f x) as [y|] eqn:Hx; cbn [bind]; [|discriminate].
    destruct (mapResult f rest) as [ys'|]; cbn [bind]; [|discriminate].
    intros [= <-]. constructor; auto.
Qed.

Lemma mapResult_Throw {A B : Type} (f : A -> result B) (xs : list A) (e : JsError) :
  mapResult f xs = Throw e -> exists x, x ∈ xs /\ f x = Throw e.
Proof.
  induction xs as [|x rest IH]; cbn [mapResult]; [discriminate|].
  destruct (f x) as [y|e'] eqn:Hx; cbn [bind].
  - destruct (mapResult f rest) as [ys'|e'']; cbn [bind]; [discriminate|].
    intros [= ->]. destruct (IH eq_refl) as (x' & Hin & Hx').
    exists x'. split; [right; exact Hin|exact Hx'].
  - intros [= ->]. exists x. split; [left|exact Hx].
Qed.

Lemma elem_of_rev_inv {A : Type} (x : A) (l : list A) : x ∈ rev l -> x ∈ l.
Proof.
  rewrite !list_elem_of_In. intros Hin. apply in_rev. exact Hin.
Qed.

Lemma firstAsnSignature_Some (fs : list IAsnSignatureFormatter)
    (algorithm : Algorithm) (signature a : bytes) :
  X509CertificateGenerator.firstAsnSignature fs algorithm signature = Ok (Some a) ->
  exists f, f ∈ fs /\ toAsnSignature f algorithm signature = Ok (Some a).
Proof.
  induction fs as [|f rest IH]; cbn [X509CertificateGenerator.firstAsnSignature];
    [discriminate|].
  destruct (toAsnSignature f algorithm signature) as [[a'|]|] eqn:Hf; cbn [bind].
  - intros [= ->]. exists f. split; [left|exact Hf].
  - intros Hrest. destruct (IH Hrest) as (f' & Hin & Hf').
    exists f'. split; [right; exact Hin|exact Hf'].
  - discriminate.
Qed.

Lemma firstAsnSignature_Throw (fs : list IAsnSignatureFormatter)
    (algorithm : Algorithm) (signature : bytes) (e : JsError) :
  X509CertificateGenerator.firstAsnSignature fs algorithm signature = Throw e ->
  exists f, f ∈ fs /\ toAsnSignature f algorithm signature = Throw e.
Proof.
  induction fs as [|f rest IH]; cbn [X509CertificateGenerator.firstAsnSignature];
    [discriminate|].
  destruct (toAsnSignature f algorithm signature) as [[a'|]|e'] eqn:Hf; cbn [bind].
  - discriminate.
  - intros Hrest. destruct (IH Hrest) as (f' & Hin & Hf').
    exists f'. split; [right; exact Hin|exact Hf'].
  - intros [= ->]. exists f. split; [left|exact Hf].
Qed.

(** The structure [assemble] returns, field by field. *)
Lemma assemble_inv (params : X509CertificateCreateParams)
    (asnX509 : asn1X509.Certificate) :
  X509CertificateGenerator.assemble params = Ok asnX509 ->
  exists (spki : bytes) (exts : list AsnExtension),
    subtle_exportKey "spki" (publicKey params) = Ok spki /\
    Convert_FromHex (serialNumber params)
      = Ok (asn1X509.serialNumber (asn1X509.tbsCertificate asnX509)) /\
    Forall2 (fun o e => AsnConvert_parse_Extension (rawData o) = Ok e)
      (default [] (extensions params)) exts /\
    asn1X509.extensions (asn1X509.tbsCertificate asnX509) = exts /\
    AsnConvert_parse_SubjectPublicKeyInfo spki
      = Ok (asn1X509.subjectPublicKeyInfo (asn1X509.tbsCertificate asnX509)) /\
    asn1X509.version (asn1X509.tbsCertificate asnX509) = asn1X509.v3 /\
    asn1X509.validity (asn1X509.tbsCertificate asnX509)
      = {| asn1X509.notBefore := notBefore params;
           asn1X509.notAfter := notAfter params |} /\
    match X509CertificateGenerator.given (subject params) with
    | Some x => exists n, X509CertificateGenerator.parseName x = Ok n /\
                  asn1X509.subject (asn1X509.tbsCertificate asnX509) = Some n
    | None => asn1X509.subject (asn1X509.tbsCertificate asnX509) = None
    end /\
    match X509CertificateGenerator.given (issuer params) with
    | Some x => exists n, X509CertificateGenerator.parseName x = Ok n /\
                  asn1X509.issuer (asn1X509.tbsCertificate asnX509) = Some n
    | None => asn1X509.issuer (asn1X509.tbsCertificate asnX509) = None
    end /\
    asn1X509.signature (asn1X509.tbsCertificate asnX509) = None /\
    asn1X509.signatureAlgorithm asnX509 = None /\
    asn1X509.signatureValue asnX509 = [].
Proof.
  unfold X509CertificateGenerator.assemble.
  destruct (subtle_exportKey "spki" (publicKey params)) as [spki|] eqn:Hexport;
    cbn [bind]; [|discriminate].
  destruct (Convert_FromHex (serialNumber params)) as [serial|] eqn:Hserial;
    cbn [bind]; [|discriminate].
  destruct (match extensions params with
            | Some es => mapResult (fun o => AsnConvert_parse_Extension (rawData o)) es
            | None => Ok []
            end) as [exts|] eqn:Hexts; cbn [bind]; [|discriminate].
  destruct (AsnConvert_parse_SubjectPublicKeyInfo spki) as [spkiAsn|] eqn:Hspki;
    cbn [bind]; [|discriminate].
  assert (Forall2 (fun o e => AsnConvert_parse_Extension (rawData o) = Ok e)
            (default [] (extensions params)) exts) as Hall.
  { destruct (extensions params) as [es|]; simpl.
    - apply mapResult_Ok, Hexts.
    - injection Hexts as <-. constructor. }
  destruct (X509CertificateGenerator.given (subject params)) as [x|].
  - destruct (X509CertificateGenerator.parseName x) as [n|] eqn:Hn;
      cbn [bind]; [|discriminate].
    destruct (X509CertificateGenerator.given (issuer params)) as [y|].
    + destruct (X509CertificateGenerator.parseName y) as [m|] eqn:Hm;
        cbn [bind]; [|discriminate].
      intros [= <-]. exists spki, exts. cbn. eauto 20.
    + intros [= <-]. exists spki, exts. cbn. eauto 20.
  - cbn [bind].
    destruct (X509CertificateGenerator.given (issuer params)) as [y|].
    + destruct (X509CertificateGenerator.parseName y) as [m|] eqn:Hm;
        cbn [bind]; [|discriminate].
      intros [= <-]. exists spki, exts. cbn. eauto 20.
    + intros [= <-]. exists spki, exts. cbn. eauto 20.
Qed.

(** X10. In every certificate [create] returns, the body is the very
    structure whose serialisation was signed with the signing key, and the
    signature value is the answer of a registered formatter to the raw
    signature of that call. *)
Theorem signed_bytes_are_certificate_body (params : X509CertificateCreateParams)
    (cert : X509Certificate) :
  X509CertificateGenerator.create params = Ok cert ->
  exists (signedX509 : asn1X509.Certificate) (signature : bytes)
         (registered : list IAsnSignatureFormatter) (f : IAsnSignatureFormatter),
    X509Certificate_new (AsnConvert_serialize_Certificate signedX509) = Ok cert /\
    subtle_sign (X509CertificateGenerator.effectiveAlgorithm params) (signingKey params)
      (AsnConvert_serialize_TBSCertificate (asn1X509.tbsCertificate signedX509))
      = Ok signature /\
    container_resolveAll_signatureFormatters = Ok registered /\
    f ∈ registered /\
    toAsnSignature f (X509CertificateGenerator.effectiveAlgorithm params) signature
      = Ok (Some (asn1X509.signatureValue signedX509)).
Proof.
  unfold X509CertificateGenerator.create.
  destruct (X509CertificateGenerator.signedStructure params) as [signedX509|] eqn:Hs;
    cbn [bind]; [|discriminate].
  intros Hnew.
  destruct (signedStructure_inv _ _ Hs)
    as (asnX509 & algId & signature & a & registered & _ & _ & Hsign & Hreg & Hfirst & ->).
  destruct (firstAsnSignature_Some _ _ _ _ Hfirst) as (f & Hin & Hf).
  exists (asn1X509.set_signatureValue a (asn1X509.set_signatureAlgorithms algId asnX509)),
         signature, registered, f.
  split; [exact Hnew|]. split; [exact Hsign|]. split; [exact Hreg|].
  split; [|exact Hf].
  apply elem_of_rev_inv, Hin.
Qed.


(** X12. The first call that fails decides the error of [create]: a failing
    key export is reported whatever the rest of the request is like, a
    failing identifier lookup is reported before anything is signed, and
    the error of the signer is thrown as it is. *)
Theorem first_failure_decides (params : X509CertificateCreateParams) (e : JsError) :
  (subtle_exportKey "spki" (publicKey params) = Throw e ->
   X509CertificateGenerator.create params = Throw e) /\
  (forall asnX509 : asn1X509.Certificate,
     X509CertificateGenerator.assemble params = Ok asnX509 ->
     AlgorithmProvider_toAsnAlgorithm (X509CertificateGenerator.effectiveAlgorithm params)
       = Throw e ->
     X509CertificateGenerator.create params = Throw e) /\
  (forall (asnX509 : asn1X509.Certificate) (algId : AlgorithmIdentifier),
     X509CertificateGenerator.assemble params = Ok asnX509 ->
     AlgorithmProvider_toAsnAlgorithm (X509CertificateGenerator.effectiveAlgorithm params)
       = Ok algId ->
     subtle_sign (X509CertificateGenerator.effectiveAlgorithm params) (signingKey params)
       (AsnConvert_serialize_TBSCertificate
          (asn1X509.tbsCertificate (asn1X509.set_signatureAlgorithms algId asnX509)))
       = Throw e ->
     X509CertificateGenerator.create params = Throw e).
Proof.
  unfold X509CertificateGenerator.create, X509CertificateGenerator.signedStructure.
  split; [|split].
  - intros Hexport. unfold X509CertificateGenerator.assemble. rewrite Hexport.
    reflexivity.
  - intros asnX509 -> ->. reflexivity.
  - intros asnX509 algId -> ->. cbn [bind]. intros ->. reflexivity.
Qed.

(** X13. An empty string as subject or issuer counts as no name: the
    request gives the same result as the request without that name, the
    name encoder is not asked, and the field keeps its default. *)
Theorem empty_name_is_skipped (params : X509CertificateCreateParams)
    (other : option X509CertificateCreateParamsName) :
  X509CertificateGenerator.create (withNames params (Some (NameString "")) other)
    = X509CertificateGenerator.create (withNames params None other) /\
  X509CertificateGenerator.create (withNames params other (Some (NameString "")))
    = X509CertificateGenerator.create (withNames params other None) /\
  (forall asnX509 : asn1X509.Certificate,
     X509CertificateGenerator.assemble (withNames params (Some (NameString "")) other)
       = Ok asnX509 ->
     asn1X509.subject (asn1X509.tbsCertificate asnX509) = None) /\
  (forall asnX509 : asn1X509.Certificate,
     X509CertificateGenerator.assemble (withNames params other (Some (NameString "")))
       = Ok asnX509 ->
     asn1X509.issuer (asn1X509.tbsCertificate asnX509) = None).
Proof.
  split; [reflexivity|]. split; [reflexivity|]. split.
  - intros asnX509 Hassemble.
    destruct (assemble_inv _ _ Hassemble)
      as (_ & _ & _ & _ & _ & _ & _ & _ & _ & Hs & _).
    exact Hs.
  - intros asnX509 Hassemble.
    destruct (assemble_inv _ _ Hassemble)
      as (_ & _ & _ & _ & _ & _ & _ & _ & _ & _ & Hi & _).
    exact Hi.
Qed.

(** X14. In a certificate [createSelfSigned] returns, subject and issuer
    are the same name (or both absent), the public key is the exported
    public key of the pair, and the signature was made with its private
    key. *)
Theorem self_signed_subject_is_issuer (params : X509CertificateCreateSelfSignedParams)
    (cert : X509Certificate) :
  X509CertificateGenerator.createSelfSigned params = Ok cert ->
  exists (signedX509 : asn1X509.Certificate) (spki signature : bytes),
    X509Certificate_new (AsnConvert_serialize_Certificate signedX509) = Ok cert /\
    asn1X509.subject (asn1X509.tbsCertificate signedX509)
      = asn1X509.issuer (asn1X509.tbsCertificate signedX509) /\
    subtle_exportKey "spki" (CryptoKeyPair.publicKey (keys params)) = Ok spki /\
    AsnConvert_parse_SubjectPublicKeyInfo spki
      = Ok (asn1X509.subjectPublicKeyInfo (asn1X509.tbsCertificate signedX509)) /\
    subtle_sign
      (algorithm (CryptoKeyPair.privateKey (keys params)) ∪ signingAlgorithm params)
      (CryptoKeyPair.privateKey (keys params))
      (AsnConvert_serialize_TBSCertificate (asn1X509.tbsCertificate signedX509))
      = Ok signature.
Proof.
  intros Hcreate.
  assert (X509CertificateGenerator.create (selfSignedRequest params) = Ok cert)
    as Hcreate' by (destruct params as [[] ? ?]; exact Hcreate).
  clear Hcreate. revert Hcreate'. unfold X509CertificateGenerator.create.
  destruct (X509CertificateGenerator.signedStructure (selfSignedRequest params))
    as [signedX509|] eqn:Hs; cbn [bind]; [|discriminate].
  intros Hnew.
  destruct (signedStructure_inv _ _ Hs)
    as (asnX509 & algId & signature & a & registered & Ha & _ & Hsign & _ & _ & ->).
  destruct (assemble_inv _ _ Ha)
    as (spki & exts & Hexport & _ & _ & _ & Hspki & _ & _ & Hsubject & Hissuer & _).
  exists (asn1X509.set_signatureValue a (asn1X509.set_signatureAlgorithms algId asnX509)),
         spki, signature.
  split; [exact Hnew|]. split; [|split; [exact Hexport|split; [exact Hspki|exact Hsign]]].
  cbn. cbn in Hsubject, Hissuer.
  destruct (X509CertificateGenerator.given (name params)) as [x|].
  - destruct Hsubject as (n & Hn & ->). destruct Hissuer as (m & Hm & ->). congruence.
  - congruence.
Qed.

(** X15. The body of a signed structure is copied from the request:
    version 3, the decoded serial number, the validity dates as given
    (also when the first is not before the second) and the parsed
    extensions, one for one and in the order of the request. *)
Theorem certificate_body_fields (params : X509CertificateCreateParams)
    (signedX509 : asn1X509.Certificate) :
  X509CertificateGenerator.signedStructure params = Ok signedX509 ->
  asn1X509.version (asn1X509.tbsCertificate signedX509) = 2 /\
  Convert_FromHex (serialNumber params)
    = Ok (asn1X509.serialNumber (asn1X509.tbsCertificate signedX509)) /\
  asn1X509.notBefore (asn1X509.validity (asn1X509.tbsCertificate signedX509))
    = notBefore params /\
  asn1X509.notAfter (asn1X509.validity (asn1X509.tbsCertificate signedX509))
    = notAfter params /\
  Forall2 (fun o e => AsnConvert_parse_Extension (rawData o) = Ok e)
    (default [] (extensions params))
    (asn1X509.extensions (asn1X509.tbsCertificate signedX509)).
Proof.
  intros Hs.
  destruct (signedStructure_inv _ _ Hs)
    as (asnX509 & algId & signature & a & registered & Ha & _ & _ & _ & _ & ->).
  destruct (assemble_inv _ _ Ha)
    as (spki & exts & _ & Hserial & Hexts & Heq & _ & Hversion & Hvalidity & _).
  cbn. rewrite Hvalidity, Heq. cbn. auto.
Qed.

End MoreGeneratorProperties.

(** X16. For the ECDSA formatter the effective algorithm of a request is
    the algorithm of the signing key: when the key's algorithm has a name
    and a curve, the point size and both conversions are those of the key's
    algorithm, whatever name and curve the caller's descriptor gives. *)
Theorem curve_comes_from_signing_key (namedCurveSize : gmap string Z)
    (codec : AsnConvert) (params : X509CertificateCreateParams) (n c : JsValue) :
  algorithm (signingKey params) !! "name"%string = Some n ->
  algorithm (signingKey params) !! "namedCurve"%string = Some c ->
  AsnEcSignatureFormatter.pointSizeOf namedCurveSize
    (X509CertificateGenerator.effectiveAlgorithm params)
  = AsnEcSignatureFormatter.pointSizeOf namedCurveSize (algorithm (signingKey params)) /\
  (forall signature : bytes,
     AsnEcSignatureFormatter.toAsnSignature namedCurveSize
       (X509CertificateGenerator.effectiveAlgorithm params) signature
     = AsnEcSignatureFormatter.toAsnSignature namedCurveSize
         (algorithm (signingKey params)) signature) /\
  (forall asn : bytes,
     AsnEcSignatureFormatter.toWebSignature namedCurveSize
       (X509CertificateGenerator.effectiveAlgorithm params) asn
     = AsnEcSignatureFormatter.toWebSignature namedCurveSize
         (algorithm (signingKey params)) asn).
Proof.
  intros Hn Hc.
  pose proof (lookup_union_Some_l _ (signingAlgorithm params) _ _ Hn) as Hn'.
  pose proof (lookup_union_Some_l _ (signingAlgorithm params) _ _ Hc) as Hc'.
  fold (X509CertificateGenerator.effectiveAlgorithm params) in Hn', Hc'.
  assert (AsnEcSignatureFormatter.pointSizeOf namedCurveSize
            (X509CertificateGenerator.effectiveAlgorithm params)
          = AsnEcSignatureFormatter.pointSizeOf namedCurveSize
              (algorithm (signingKey params))) as Hsize.
  { unfold AsnEcSignatureFormatter.pointSizeOf. rewrite Hc, Hc'. reflexivity. }
  assert (name_is (X509CertificateGenerator.effectiveAlgorithm params) "ECDSA"
          = name_is (algorithm (signingKey params)) "ECDSA") as Hname.
  { unfold name_is. rewrite Hn, Hn'. reflexivity. }
  split; [exact Hsize|]. split.
  - intros signature. unfold AsnEcSignatureFormatter.toAsnSignature.
    rewrite Hname, Hsize. reflexivity.
  - intros asn. unfold AsnEcSignatureFormatter.toWebSignature.
    rewrite Hname, Hsize. reflexivity.
Qed.

(** X17. When the effective algorithm is named ECDSA and the ECDSA
    formatter is the most recently registered one, the signature value of
    the structure is the ECDSASigValue made of the two point-size slices of
    the raw signature without their leading zero bytes. *)
Theorem ecdsa_signature_value (types : Asn1X509Types) (codecs : TextCodecs)
    (env : Collaborators) (namedCurveSize : gmap string Z) (codec : AsnConvert)
    (params : X509CertificateCreateParams) (asnX509 : asn1X509.Certificate)
    (algId : AlgorithmIdentifier) (signature : bytes)
    (older : list IAsnSignatureFormatter) :
  X509CertificateGenerator.assemble params = Ok asnX509 ->
  AlgorithmProvider_toAsnAlgorithm (X509CertificateGenerator.effectiveAlgorithm params)
    = Ok algId ->
  subtle_sign (X509CertificateGenerator.effectiveAlgorithm params) (signingKey params)
    (AsnConvert_serialize_TBSCertificate
       (asn1X509.tbsCertificate (asn1X509.set_signatureAlgorithms algId asnX509)))
    = Ok signature ->
  container_resolveAll_signatureFormatters
    = Ok (older ++ [AsnEcSignatureFormatter.formatter namedCurveSize]) ->
  name_is (X509CertificateGenerator.effectiveAlgorithm params) "ECDSA" = true ->
  exists signedX509 : asn1X509.Certificate,
    X509CertificateGenerator.signedStructure params = Ok signedX509 /\
    asn1X509.signatureValue signedX509
    = serialize (ECDSASigValue.mk
        (AsnEcSignatureFormatter.removePadding
           (slice signature 0
              (AsnEcSignatureFormatter.pointSizeOf namedCurveSize
                 (X509CertificateGenerator.effectiveAlgorithm params))))
        (AsnEcSignatureFormatter.removePadding
           (slice signature
              (AsnEcSignatureFormatter.pointSizeOf namedCurveSize
                 (X509CertificateGenerator.effectiveAlgorithm params))
              (AsnEcSignatureFormatter.pointSizeOf namedCurveSize
                 (X509CertificateGenerator.effectiveAlgorithm params)
               + AsnEcSignatureFormatter.pointSizeOf namedCurveSize
                   (X509CertificateGenerator.effectiveAlgorithm params))))).
Proof.
  intros Ha Hid Hsign Hreg Hname.
  rewrite (signedStructure_after_signing params asnX509 algId signature
             Ha Hid Hsign _ Hreg).
  pose proof (toAsnSignature_ecdsa namedCurveSize codec _ signature Hname) as Hf.
  change (AsnEcSignatureFormatter.toAsnSignature namedCurveSize
            (X509CertificateGenerator.effectiveAlgorithm params) signature)
    with (toAsnSignature (AsnEcSignatureFormatter.formatter namedCurveSize)
            (X509CertificateGenerator.effectiveAlgorithm params) signature) in Hf.
  rewrite (firstAsnSignature_rev older [] _ _ _ _ ltac:(constructor) Hf).
  eexists. split; reflexivity.
Qed.

(** X18. When only ECDSA formatters are registered and the effective
    algorithm is not named ECDSA, a request that got as far as a raw
    signature ends with the conversion error. *)
Theorem only_ecdsa_formatters (types : Asn1X509Types) (codecs : TextCodecs)
    (env : Collaborators) (params : X509CertificateCreateParams)
    (asnX509 : asn1X509.Certificate) (algId : AlgorithmIdentifier)
    (signature : bytes) (registered : list IAsnSignatureFormatter) :
  X509CertificateGenerator.assemble params = Ok asnX509 ->
  AlgorithmProvider_toAsnAlgorithm (X509CertificateGenerator.effectiveAlgorithm params)
    = Ok algId ->
  subtle_sign (X509CertificateGenerator.effectiveAlgorithm params) (signingKey params)
    (AsnConvert_serialize_TBSCertificate
       (asn1X509.tbsCertificate (asn1X509.set_signatureAlgorithms algId asnX509)))
    = Ok signature ->
  container_resolveAll_signatureFormatters = Ok registered ->
  Forall (fun f => exists (namedCurveSize : gmap string Z) (codec : AsnConvert),
                     f = AsnEcSignatureFormatter.formatter namedCurveSize) registered ->
  name_is (X509CertificateGenerator.effectiveAlgorithm params) "ECDSA" = false ->
  X509CertificateGenerator.create params
  = Throw (Error "Cannot convert ASN.1 signature value to WebCrypto format").
Proof.
  intros Ha Hid Hsign Hreg Hec Hname.
  unfold X509CertificateGenerator.create.
  rewrite (signedStructure_after_signing params asnX509 algId signature
             Ha Hid Hsign _ Hreg).
  rewrite firstAsnSignature_all_declined; [reflexivity|].
  apply Forall_rev. eapply Forall_impl; [exact Hec|].
  intros f (table & codec & ->). unfold declines. cbn.
  unfold AsnEcSignatureFormatter.toAsnSignature. rewrite Hname. reflexivity.
Qed.

(** ** Runs on the sample collaborators *)

Lemma Ok_inj {A : Type} (a b : A) : Ok a = Ok b -> a = b.
Proof. intros [= ->]. reflexivity. Qed.

Lemma signed_bytes_are_certificate_body_witness :
  exists (cert : bytes) (signedX509 : asn1X509.Certificate (types := GeneratorSample.types)),
    @X509CertificateGenerator.create GeneratorSample.types TextSample.codecs
      (GeneratorSample.env [GeneratorSample.passThrough; GeneratorSample.ecFormatter])
      GeneratorSample.ecRequest = Ok cert /\
    GeneratorSample.serializeCertificate signedX509 = cert /\
    exists signature,
      GeneratorSample.sign
        (X509CertificateGenerator.effectiveAlgorithm GeneratorSample.ecRequest)
        (signingKey GeneratorSample.ecRequest)
        (GeneratorSample.serializeTbs (asn1X509.tbsCertificate signedX509))
      = Ok signature.
Proof.
  eexists.
  edestruct (@signed_bytes_are_certificate_body GeneratorSample.types TextSample.codecs
               (GeneratorSample.env
                  [GeneratorSample.passThrough; GeneratorSample.ecFormatter])
               GeneratorSample.ecRequest)
    as (signedX509 & signature & registered & f & Hnew & Hsign & _).
  - reflexivity.
  - exists signedX509. split; [reflexivity|].
    split; [|exists signature; exact Hsign].
    apply (Ok_inj (GeneratorSample.serializeCertificate signedX509)). exact Hnew.
Defined.


Lemma first_failure_decides_witness :
  @X509CertificateGenerator.create GeneratorSample.types TextSample.codecs
    MoreSamples.failingSigner GeneratorSample.ecRequest
  = Throw MoreSamples.rejected.
Proof.
  destruct (@first_failure_decides GeneratorSample.types TextSample.codecs
              MoreSamples.failingSigner GeneratorSample.ecRequest MoreSamples.rejected)
    as (_ & _ & Hsign).
  eapply Hsign; reflexivity.
Defined.

Lemma empty_name_is_skipped_witness :
  @X509CertificateGenerator.create GeneratorSample.types TextSample.codecs
    (GeneratorSample.env [GeneratorSample.ecFormatter])
    (withNames GeneratorSample.ecRequest (Some (NameString "")) None)
  = @X509CertificateGenerator.create GeneratorSample.types TextSample.codecs
      (GeneratorSample.env [GeneratorSample.ecFormatter])
      (withNames GeneratorSample.ecRequest None None).
Proof.
  apply (proj1 (@empty_name_is_skipped GeneratorSample.types TextSample.codecs
                  (GeneratorSample.env [GeneratorSample.ecFormatter])
                  GeneratorSample.ecRequest None)).
Defined.

Lemma self_signed_subject_is_issuer_witness :
  exists (cert : bytes) (signedX509 : asn1X509.Certificate (types := GeneratorSample.types)),
    @X509CertificateGenerator.createSelfSigned GeneratorSample.types TextSample.codecs
      (GeneratorSample.env [GeneratorSample.ecFormatter]) GeneratorSample.selfSigned
      = Ok cert /\
    GeneratorSample.serializeCertificate signedX509 = cert /\
    asn1X509.subject (asn1X509.tbsCertificate signedX509)
      = asn1X509.issuer (asn1X509.tbsCertificate signedX509).
Proof.
  eexists.
  edestruct (@self_signed_subject_is_issuer GeneratorSample.types TextSample.codecs
               (GeneratorSample.env [GeneratorSample.ecFormatter])
               GeneratorSample.selfSigned)
    as (signedX509 & spki & signature & Hnew & Hsame & _).
  - reflexivity.
  - exists signedX509. split; [reflexivity|].
    split; [|exact Hsame].
    apply (Ok_inj (GeneratorSample.serializeCertificate signedX509)). exact Hnew.
Defined.

Lemma certificate_body_fields_witness :
  exists signedX509 : asn1X509.Certificate (types := GeneratorSample.types),
    @X509CertificateGenerator.signedStructure GeneratorSample.types TextSample.codecs
      (GeneratorSample.env [GeneratorSample.ecFormatter]) MoreSamples.reversedValidity
      = Ok signedX509 /\
    asn1X509.serialNumber (asn1X509.tbsCertificate signedX509) = [x0a] /\
    asn1X509.notAfter (asn1X509.validity (asn1X509.tbsCertificate signedX509))
      < asn1X509.notBefore (asn1X509.validity (asn1X509.tbsCertificate signedX509)) /\
    asn1X509.extensions (asn1X509.tbsCertificate signedX509)
      = [[x30; x00]; [x30; x01; x07]].
Proof.
  eexists. split; [reflexivity|].
  destruct (@certificate_body_fields GeneratorSample.types TextSample.codecs
              (GeneratorSample.env [GeneratorSample.ecFormatter])
              MoreSamples.reversedValidity _ eq_refl)
    as (_ & _ & Hbefore & Hafter & _).
  split; [reflexivity|]. split; [|reflexivity].
  rewrite Hbefore, Hafter. reflexivity.
Defined.

Lemma curve_comes_from_signing_key_witness :
  signingAlgorithm MoreSamples.otherCurve !! "namedCurve"%string
    = Some (JsString "P-521") /\
  AsnEcSignatureFormatter.pointSizeOf Sample.namedCurveSize
    (X509CertificateGenerator.effectiveAlgorithm MoreSamples.otherCurve) = 32.
Proof.
  split; [reflexivity|].
  rewrite (proj1 (curve_comes_from_signing_key Sample.namedCurveSize Der.codec
                    MoreSamples.otherCurve (JsString "ECDSA") (JsString "P-256")
                    eq_refl eq_refl)).
  reflexivity.
Defined.

Lemma ecdsa_signature_value_witness :
  exists signedX509 : asn1X509.Certificate (types := GeneratorSample.types),
    @X509CertificateGenerator.signedStructure GeneratorSample.types TextSample.codecs
      (GeneratorSample.env [GeneratorSample.passThrough; GeneratorSample.ecFormatter])
      GeneratorSample.ecRequest = Ok signedX509 /\
    take 7 (asn1X509.signatureValue signedX509)
      = [x30; x25; x02; x01; x02; x02; x20].
Proof.
  edestruct (@ecdsa_signature_value GeneratorSample.types TextSample.codecs
               (GeneratorSample.env
                  [GeneratorSample.passThrough; GeneratorSample.ecFormatter])
               Sample.namedCurveSize Der.codec GeneratorSample.ecRequest)
    as (signedX509 & Hs & Hvalue).
  - reflexivity.
  - reflexivity.
  - reflexivity.
  - instantiate (1 := [GeneratorSample.passThrough]). reflexivity.
  - reflexivity.
  - exists signedX509. split; [exact Hs|]. rewrite Hvalue. vm_compute. reflexivity.
Defined.

Lemma only_ecdsa_formatters_witness :
  @X509CertificateGenerator.create GeneratorSample.types TextSample.codecs
    (GeneratorSample.env [GeneratorSample.ecFormatter; GeneratorSample.ecFormatter])
    GeneratorSample.rsaRequest
  = Throw (Error "Cannot convert ASN.1 signature value to WebCrypto format").
Proof.
  eapply (@only_ecdsa_formatters GeneratorSample.types TextSample.codecs
            (GeneratorSample.env [GeneratorSample.ecFormatter; GeneratorSample.ecFormatter])
            GeneratorSample.rsaRequest).
  - reflexivity.
  - reflexivity.
  - reflexivity.
  - reflexivity.
  - repeat constructor; exists Sample.namedCurveSize, Der.codec; reflexivity.
  - reflexivity.
Defined.

(** * Further properties of the decoder and of [toString] *)

Section MoreDecoderProperties.
Context {codecs : TextCodecs} {encoders : TextEncoders}.

(** X19. What decoding makes of an exported text.  The default export
    is PEM.  A PEM or hex export is read back when the text is classified
    and decoded as such.  A base64 export is read back as base64 only when
    the hex classifier rejects its text; when the text is made of hex
    digits, it is decoded as hex.  An unknown format name, such as one in
    upper case, yields the TypeError and no text. *)
Theorem import_of_export (rawData : bytes) (tag : string) :
  PemData.toString rawData tag None = Ok (PemConverter_encode rawData tag) /\
  (PemConverter_isPem (PemConverter_encode rawData tag) = true ->
   PemConverter_decode (PemConverter_encode rawData tag) = Ok [rawData] ->
   exists text, PemData.toString rawData tag (Some "pem"%string) = Ok text /\
     PemData.toArrayBuffer (Text text) = Ok (Some rawData)) /\
  (PemConverter_isPem (Convert_ToHex rawData) = false ->
   Convert_isHex (Convert_ToHex rawData) = true ->
   Convert_FromHex (Convert_ToHex rawData) = Ok rawData ->
   exists text, PemData.toString rawData tag (Some "hex"%string) = Ok text /\
     PemData.toArrayBuffer (Text text) = Ok (Some rawData)) /\
  (PemConverter_isPem (Convert_ToBase64 rawData) = false ->
   Convert_isHex (Convert_ToBase64 rawData) = false ->
   Convert_isBase64 (Convert_ToBase64 rawData) = true ->
   Convert_FromBase64 (Convert_ToBase64 rawData) = Ok rawData ->
   exists text, PemData.toString rawData tag (Some "base64"%string) = Ok text /\
     PemData.toArrayBuffer (Text text) = Ok (Some rawData)) /\
  (PemConverter_isPem (Convert_ToBase64 rawData) = false ->
   Convert_isHex (Convert_ToBase64 rawData) = true ->
   exists text, PemData.toString rawData tag (Some "base64"%string) = Ok text /\
     PemData.toArrayBuffer (Text text)
     = (b <- Convert_FromHex text ;; Ok (Some b))) /\
  (forall format : string,
     format <> "pem"%string -> format <> "hex"%string ->
     format <> "base64"%string -> format <> "base64url"%string ->
     PemData.toString rawData tag (Some format)
     = Throw (TypeError "Argument 'format' is unsupported value")).
Proof.
  split; [reflexivity|].
  split; [|split; [|split; [|split]]].
  - intros Hpem Hdecode. eexists. split; [reflexivity|].
    unfold PemData.toArrayBuffer. rewrite Hpem, Hdecode. reflexivity.
  - intros Hpem Hhex Hback. eexists. split; [reflexivity|].
    unfold PemData.toArrayBuffer. rewrite Hpem, Hhex, Hback. reflexivity.
  - intros Hpem Hhex H64 Hback. eexists. split; [reflexivity|].
    unfold PemData.toArrayBuffer. rewrite Hpem, Hhex, H64, Hback. reflexivity.
  - intros Hpem Hhex. eexists. split; [reflexivity|].
    unfold PemData.toArrayBuffer. rewrite Hpem, Hhex. reflexivity.
  - intros format H1 H2 H3 H4. unfold PemData.toString.
    change (default "pem"%string (Some format)) with format. cbv zeta.
    apply String.eqb_neq in H1, H2, H3, H4. rewrite H1, H2, H3, H4. reflexivity.
Qed.

(** X20. The decoder answers [undefined] in one case only: a text that
    is classified as PEM and in which the PEM decoder finds no object.  The
    constructor then hands [undefined] to the constructor it extends. *)
Theorem toArrayBuffer_undefined (raw : AsnEncodedType) :
  (PemData.toArrayBuffer raw = Ok None <->
   exists text : string,
     raw = Text text /\ PemConverter_isPem text = true /\
     PemConverter_decode text = Ok []) /\
  (PemData.toArrayBuffer raw = Ok None ->
   forall (T D : Type) (AsnData_ofRaw : option bytes -> result D)
          (AsnData_ofAsn : T -> result D),
     PemData.new AsnData_ofRaw AsnData_ofAsn (inl raw) = AsnData_ofRaw None).
Proof.
  split.
  - split.
    + destruct raw as [b|text]; cbn [PemData.toArrayBuffer]; [discriminate|].
      destruct (PemConverter_isPem text) eqn:Hpem.
      * destruct (PemConverter_decode text) as [[|first others]|] eqn:Hdecode;
          cbn; try discriminate.
        intros _. exists text. auto.
      * destruct (Convert_isHex text);
          [destruct (Convert_FromHex text); cbn; discriminate|].
        destruct (Convert_isBase64 text);
          [destruct (Convert_FromBase64 text); cbn; discriminate|].
        destruct (Convert_isBase64Url text);
          [destruct (Convert_FromBase64Url text); cbn; discriminate|discriminate].
    + intros (text & -> & Hpem & Hdecode). cbn [PemData.toArrayBuffer].
      rewrite Hpem, Hdecode. reflexivity.
  - intros Hnone T D ofRaw ofAsn. unfold PemData.new. rewrite Hnone. reflexivity.
Qed.

(** X21. The decoder does not fall back: once a classifier has accepted the
    text, the error of its decoder is the error of the call, also when a
    format of lower priority would accept and decode the text.  Every
    error of the decoder is the unsupported-format TypeError or the error
    of one of the four decoders on the text. *)
Theorem decoder_failure_is_final (text : string) (e : JsError) :
  (PemConverter_isPem text = true -> PemConverter_decode text = Throw e ->
   PemData.toArrayBuffer (Text text) = Throw e) /\
  (PemConverter_isPem text = false -> Convert_isHex text = true ->
   Convert_FromHex text = Throw e ->
   PemData.toArrayBuffer (Text text) = Throw e) /\
  (PemConverter_isPem text = false -> Convert_isHex text = false ->
   Convert_isBase64 text = true -> Convert_FromBase64 text = Throw e ->
   PemData.toArrayBuffer (Text text) = Throw e) /\
  (forall raw : AsnEncodedType,
     PemData.toArrayBuffer raw = Throw e ->
     exists t : string,
       raw = Text t /\
       (e = PemData.unsupported_format \/ PemConverter_decode t = Throw e \/
        Convert_FromHex t = Throw e \/ Convert_FromBase64 t = Throw e \/
        Convert_FromBase64Url t = Throw e)).
Proof.
  split; [|split; [|split]].
  - intros Hpem Hdecode. unfold PemData.toArrayBuffer. rewrite Hpem, Hdecode.
    reflexivity.
  - intros Hpem Hhex Hdecode. unfold PemData.toArrayBuffer.
    rewrite Hpem, Hhex, Hdecode. reflexivity.
  - intros Hpem Hhex H64 Hdecode. unfold PemData.toArrayBuffer.
    rewrite Hpem, Hhex, H64, Hdecode. reflexivity.
  - intros [b|t]; cbn [PemData.toArrayBuffer]; [discriminate|].
    intros Hthrow. exists t. split; [reflexivity|]. revert Hthrow.
    destruct (PemConverter_isPem t).
    { destruct (PemConverter_decode t); cbn; [discriminate|intros [= ->]; auto]. }
    destruct (Convert_isHex t).
    { destruct (Convert_FromHex t); cbn; [discriminate|intros [= ->]; auto]. }
    destruct (Convert_isBase64 t).
    { destruct (Convert_FromBase64 t); cbn; [discriminate|intros [= ->]; auto]. }
    destruct (Convert_isBase64Url t).
    { destruct (Convert_FromBase64Url t); cbn; [discriminate|intros [= ->]; auto 6]. }
    intros [= <-]. auto.
Qed.

End MoreDecoderProperties.

Lemma import_of_export_witness :
  (exists text,
     @PemData.toString EncoderSample.encoders [x01; x02; x03] "CERTIFICATE" None
       = Ok text /\
     @PemData.toArrayBuffer TextSample.codecs (Text text) = Ok (Some [x01; x02; x03])) /\
  (exists text,
     @PemData.toString EncoderSample.encoders EncoderSample.looksHex "CERTIFICATE"
       (Some "base64"%string) = Ok text /\
     @PemData.toArrayBuffer TextSample.codecs (Text text) = Ok (Some [xde; xad]) /\
     TextSample.FromBase64 text = Ok EncoderSample.looksHex).
Proof.
  destruct (@import_of_export TextSample.codecs EncoderSample.encoders
              [x01; x02; x03] "CERTIFICATE") as (Hdefault & Hpem & _).
  destruct (@import_of_export TextSample.codecs EncoderSample.encoders
              EncoderSample.looksHex "CERTIFICATE") as (_ & _ & _ & _ & Hshadow & _).
  split.
  - destruct (Hpem eq_refl eq_refl) as (text & Htext & Hback).
    exists text. split; [|exact Hback].
    rewrite Hdefault. rewrite <- Htext. reflexivity.
  - destruct (Hshadow eq_refl eq_refl) as (text & Htext & Hback).
    exists text. split; [exact Htext|].
    injection Htext as <-. split; [|reflexivity].
    rewrite Hback. reflexivity.
Defined.

Lemma toArrayBuffer_undefined_witness :
  @PemData.toArrayBuffer EncoderSample.prefixPem (Text "-----BEGIN CERTIFICATE-----")
    = Ok None /\
  @PemData.toArrayBuffer TextSample.codecs (Text "dead") <> Ok None.
Proof.
  split.
  - apply (proj2 (proj1 (@toArrayBuffer_undefined EncoderSample.prefixPem
                           (Text "-----BEGIN CERTIFICATE-----")))).
    eexists. split; [reflexivity|]. split; reflexivity.
  - intros Hnone.
    apply (proj1 (proj1 (@toArrayBuffer_undefined TextSample.codecs (Text "dead"))))
      in Hnone.
    destruct Hnone as (text & [= <-] & Hpem & _). discriminate Hpem.
Defined.

Lemma decoder_failure_is_final_witness :
  TextSample.isBase64Url "abc" = true /\
  TextSample.FromBase64Url "abc" = Ok [x69; xb7] /\
  @PemData.toArrayBuffer EncoderSample.strictHex (Text "abc")
  = Throw (TypeError "Argument 'hexString' has an odd length").
Proof.
  split; [reflexivity|]. split; [reflexivity|].
  apply (proj1 (proj2 (@decoder_failure_is_final EncoderSample.strictHex "abc"
                         (TypeError "Argument 'hexString' has an odd length"))));
    reflexivity.
Defined.
